(** * AgroData dashboard: KPI aggregation and rule-based recommendations

    Shallow embedding of [kpis_basicos], [recomendacao_ia] and the dashboard
    tab that calls them (src/app.py), and of the code around them:
    [gerar_dados_exemplo], the CSV branch of [carregar_dados],
    [get_settings], [check_login],
    [log_access_event] and the sidebar's logout.

    Modelling choices:
    - a pandas row is the record [Linha]; a frame is the list of its rows in
      positional order ([df.iloc[-1]] is the last element of the list);
    - timestamps are integers counting seconds, so [pd.Timedelta(hours=h)]
      is [h * 3600];
    - the float columns are rationals [Q] (sums and ratios are exact);
      [bomba_ligada] is the 0/1 integer column, tested with [== 1];
    - the severity level [nivel] is the string tag of the source;
    - each message is one of the five f-string templates of the source,
      kept as a constructor carrying the values interpolated in it. *)

From Stdlib Require Import ZArith QArith List Bool Ascii String Lia Permutation.
Import ListNotations.

Local Open Scope Q_scope.

(** ** Data model *)

Record Linha := mkLinha {
  timestamp : Z;
  lamina_cm : Q;
  vazao_m3h : Q;
  energia_kwh : Q;
  chuva_mm : Q;
  bomba_ligada : Z
}.

Definition DataFrame := list Linha.

(** Python's [x < y] on the float columns. *)
Definition Qlt_bool (x y : Q) : bool := negb (Qle_bool y x).

(** [pd.Timedelta(hours=h)] in seconds. *)
Definition horas (h : Z) : Z := (h * 3600)%Z.

(** [df[col].sum()] *)
Definition soma (col : Linha -> Q) (df : DataFrame) : Q :=
  fold_right (fun r acc => col r + acc) 0 df.

(** [df[col].sum()] on the integer column. *)
Definition soma_Z (col : Linha -> Z) (df : DataFrame) : Z :=
  fold_right (fun r acc => (col r + acc)%Z) 0%Z df.

(** [df["timestamp"].max()] of a non-empty frame; on an empty frame pandas
    yields [NaT], which no caller below reaches. *)
Definition ts_max (df : DataFrame) : Z :=
  match df with
  | [] => 0%Z
  | r :: rs => fold_left Z.max (map timestamp rs) (timestamp r)
  end.

(** [df[df["timestamp"] >= (agora - pd.Timedelta(hours=h))]] *)
Definition desde (agora : Z) (h : Z) (df : DataFrame) : DataFrame :=
  filter (fun r => (agora - horas h <=? timestamp r)%Z) df.

(** [df.iloc[-1]] *)
Fixpoint ultima_linha (df : DataFrame) : option Linha :=
  match df with
  | [] => None
  | [r] => Some r
  | _ :: rs => ultima_linha rs
  end.

(** [energia / volume if volume > 0 else None] *)
Definition razao (energia volume : Q) : option Q :=
  if Qlt_bool 0 volume then Some (energia / volume) else None.

(** ** [kpis_basicos] *)

Record Kpis := mkKpis {
  lamina_media : Q;
  total_energia : Q;
  total_volume : Q;
  eficiencia : option Q;
  horas_bomba : Z;
  chuva_24h : Q
}.

(** [kpis_basicos(df)]. On an empty frame pandas returns a NaN mean and a
    [NaT] maximum; that input is outside the contract and gives [None]. *)
Definition kpis_basicos (df : DataFrame) : option Kpis :=
  match df with
  | [] => None
  | _ =>
    let total_energia := soma energia_kwh df in
    let total_volume := soma vazao_m3h df in
    let lamina_media := soma lamina_cm df / inject_Z (Z.of_nat (List.length df)) in
    let eficiencia := razao total_energia total_volume in
    let horas_bomba := soma_Z bomba_ligada df in
    let chuva_24h := soma chuva_mm (desde (ts_max df) 24 df) in
    Some (mkKpis lamina_media total_energia total_volume eficiencia horas_bomba chuva_24h)
  end.

(** ** [recomendacao_ia] *)

Inductive Mensagem :=
  | MsgChuva (chuva_24h : Q)          (* "Recomendação: considerar reduzir/adiar ..." *)
  | MsgLaminaAlta (lamina : Q)        (* "Alerta: lâmina d'água elevada ..." *)
  | MsgLaminaBaixa (lamina : Q)       (* "Ação prioritária: lâmina d'água baixa ..." *)
  | MsgEficiencia (ef_6h base : Q)    (* "Alerta de eficiência energética: ..." *)
  | MsgPadrao.                        (* "Condição operacional dentro do padrão ..." *)

(** [eficiencia_6h] from the frame [ult_6h]. *)
Definition ef_janela (ult_6h : DataFrame) : option Q :=
  let energia_6h := soma energia_kwh ult_6h in
  let volume_6h := soma vazao_m3h ult_6h in
  razao energia_6h volume_6h.

(** [eficiencia_6h] of [recomendacao_ia], over the copy [df]. *)
Definition eficiencia_6h (df : DataFrame) : option Q :=
  ef_janela (desde (ts_max df) 6 df).

(** [df_ligada = df[df["bomba_ligada"] == 1]] *)
Definition df_ligada (df : DataFrame) : DataFrame :=
  filter (fun r => (bomba_ligada r =? 1)%Z) df.

(** [base_ef] from the frame [df_ligada]. *)
Definition base_ligada (dl : DataFrame) : option Q :=
  if (10 <? List.length dl)%nat && Qlt_bool 0 (soma vazao_m3h dl)
  then Some (soma energia_kwh dl / soma vazao_m3h dl)
  else None.

(** [base_ef] of [recomendacao_ia]. *)
Definition base_ef (df : DataFrame) : option Q := base_ligada (df_ligada df).

(** The state [(mensagens, nivel)] threaded through the rules. *)
Definition Estado := (list Mensagem * string)%type.

(** [if cond: mensagens.append(msg); nivel = nv] *)
Definition regra (cond : bool) (msg : Mensagem) (nv : string) (st : Estado) : Estado :=
  if cond then (fst st ++ [msg], nv) else st.

(** The efficiency rule: it needs both values to be present. *)
Definition regra_eficiencia (ef6 base : option Q) (st : Estado) : Estado :=
  match ef6, base with
  | Some e, Some b =>
      regra (Qlt_bool (b * (115 # 100)) e) (MsgEficiencia e b) "warning" st
  | _, _ => st
  end.

(** [if not mensagens: mensagens.append(...); nivel = "success"] *)
Definition regra_padrao (st : Estado) : Estado :=
  match fst st with
  | [] => ([MsgPadrao], "success"%string)
  | _ => st
  end.

(** The rules of [recomendacao_ia], in their order, from the values the
    function has computed. *)
Definition aplicar_regras (chuva_24h lamina_atual : Q) (ef6 base : option Q) : Estado :=
  let st0 : Estado := ([], "info"%string) in
  let st1 := regra (Qle_bool 10 chuva_24h) (MsgChuva chuva_24h) "warning" st0 in
  let st2 := regra (Qle_bool (19 # 2) lamina_atual) (MsgLaminaAlta lamina_atual) "warning" st1 in
  let st3 := regra (Qle_bool lamina_atual 6) (MsgLaminaBaixa lamina_atual) "error" st2 in
  let st4 := regra_eficiencia ef6 base st3 in
  regra_padrao st4.

(** [recomendacao_ia(df)]: [None] stands for the [IndexError] of
    [df.iloc[-1]] on an empty frame. *)
Definition recomendacao_ia (df : DataFrame) : option Estado :=
  let agora := ts_max df in
  let ult_24h := desde agora 24 df in
  let chuva_24h := soma chuva_mm ult_24h in
  match ultima_linha df with
  | None => None
  | Some ultima =>
    let lamina_atual := lamina_cm ultima in
    Some (aplicar_regras chuva_24h lamina_atual (eficiencia_6h df) (base_ef df))
  end.

(** ** The dashboard tab *)

(** The options of the "Período" select box. *)
Inductive Periodo := Ultimas24h | Ultimos3dias | Ultimos7dias | Tudo.

(** The width in hours of each period; [Tudo] keeps every row. *)
Definition janela_periodo (p : Periodo) : option Z :=
  match p with
  | Ultimas24h => Some 24%Z
  | Ultimos3dias => Some 72%Z
  | Ultimos7dias => Some 168%Z
  | Tudo => None
  end.

(** [df_f], from [max_data = df["timestamp"].max()]. *)
Definition filtrar_periodo (p : Periodo) (df : DataFrame) : DataFrame :=
  let max_data := ts_max df in
  match janela_periodo p with
  | Some h => desde max_data h df
  | None => df
  end.

(** The calls the tab makes, with the frame each one receives. *)
Inductive Chamada :=
  | ChamaKpis (arg : DataFrame)
  | ChamaRecomendacao (arg : DataFrame).

(** [with tabs[0]:] the calls [kpis_basicos(df_f)] and
    [recomendacao_ia(df_f)], and their results. *)
Definition aba_dashboard (p : Periodo) (df : DataFrame)
  : list Chamada * (option Kpis * option Estado) :=
  let df_f := filtrar_periodo p df in
  ([ChamaKpis df_f; ChamaRecomendacao df_f],
   (kpis_basicos df_f, recomendacao_ia df_f)).

(** ** Frames in a shared store

    [kpis_basicos] and [recomendacao_ia] receive a reference to a pandas
    frame. The store maps references to frames; [df.copy()] and boolean
    indexing [df[mask]] allocate a new frame, column reads only read. A
    failing run (an exception) is [None]. *)

Definition Loc := nat.
Definition Memoria := list DataFrame.
Definition ST (A : Type) := Memoria -> option (A * Memoria).

Definition ret_st {A} (a : A) : ST A := fun m => Some (a, m).

Definition bind_st {A B} (c : ST A) (f : A -> ST B) : ST B :=
  fun m => match c m with
           | None => None
           | Some (a, m') => f a m'
           end.

Notation "x <- c ;; k" := (bind_st c (fun x => k))
  (at level 61, c at next level, right associativity).

Definition falha {A} : ST A := fun _ => None.

Definition ler (l : Loc) : ST DataFrame :=
  fun m => match nth_error m l with
           | Some d => Some (d, m)
           | None => None
           end.

Definition alocar (d : DataFrame) : ST Loc :=
  fun m => Some (List.length m, m ++ [d]).

(** [df.copy()] *)
Definition copiar (l : Loc) : ST Loc := d <- ler l ;; alocar d.

(** [df[mask]] *)
Definition selecionar (mask : Linha -> bool) (l : Loc) : ST Loc :=
  d <- ler l ;; alocar (filter mask d).

(** [kpis_basicos(df)] on the frame stored at [l_df]. *)
Definition kpis_basicos_st (l_df : Loc) : ST (option Kpis) :=
  df <- ler l_df ;;
  l24 <- selecionar (fun r => (ts_max df - horas 24 <=? timestamp r)%Z) l_df ;;
  ult_24h <- ler l24 ;;
  ret_st (match df with
          | [] => None
          | _ => Some (mkKpis (soma lamina_cm df / inject_Z (Z.of_nat (List.length df)))
                              (soma energia_kwh df) (soma vazao_m3h df)
                              (razao (soma energia_kwh df) (soma vazao_m3h df))
                              (soma_Z bomba_ligada df) (soma chuva_mm ult_24h))
          end).

(** [recomendacao_ia(df)] on the frame stored at [l_df]: it works on the
    copy [df = df.copy()]. *)
Definition recomendacao_ia_st (l_df : Loc) : ST Estado :=
  l <- copiar l_df ;;
  df <- ler l ;;
  l6 <- selecionar (fun r => (ts_max df - horas 6 <=? timestamp r)%Z) l ;;
  l24 <- selecionar (fun r => (ts_max df - horas 24 <=? timestamp r)%Z) l ;;
  ult_24h <- ler l24 ;;
  match ultima_linha df with
  | None => falha
  | Some ultima =>
    ult_6h <- ler l6 ;;
    lig <- selecionar (fun r => (bomba_ligada r =? 1)%Z) l ;;
    dl <- ler lig ;;
    ret_st (aplicar_regras (soma chuva_mm ult_24h) (lamina_cm ultima)
                           (ef_janela ult_6h) (base_ligada dl))
  end.

(** ** Concrete frames *)

(** The row of hour [h]. *)
Definition linha_h (h : Z) (lamina energia vazao chuva : Q) (bomba : Z) : Linha :=
  mkLinha (horas h) lamina vazao energia chuva bomba.

(** The hours [0 .. n-1]. *)
Definition horas_ate (n : nat) : list Z := map Z.of_nat (seq 0 n).

(** 20 hourly rows, pump on, depth 5.0 cm, no rain; 1 kWh per 10 m³ up to
    hour 12, 10 kWh per 10 m³ in the last 7 hours. *)
Definition exemplo_lamina_baixa : DataFrame :=
  map (fun h => linha_h h 5 (if (h <? 13)%Z then 1 else 10) 10 0 1) (horas_ate 20).

(** 12 hourly rows, pump on, depth 7.0 cm, no rain, 1 kWh per 10 m³. *)
Definition exemplo_normal : DataFrame :=
  map (fun h => linha_h h 7 1 10 0 1) (horas_ate 12).

(** 12 hourly rows with 2 mm of rain each and depth 10.0 cm. *)
Definition exemplo_chuva_lamina_alta : DataFrame :=
  map (fun h => linha_h h 10 1 10 2 1) (horas_ate 12).

(** 12 hourly rows with depth exactly 9.5 cm. *)
Definition exemplo_lamina_9_5 : DataFrame :=
  map (fun h => linha_h h (19 # 2) 1 10 0 1) (horas_ate 12).

(** 12 hourly rows, the pump on in the first 10 only. *)
Definition exemplo_dez_ligadas : DataFrame :=
  map (fun h => linha_h h 7 1 10 0 (if (h <? 10)%Z then 1 else 0)) (horas_ate 12).

(** Two rows 48 hours apart. *)
Definition exemplo_dois_dias : DataFrame :=
  [linha_h 0 7 1 10 0 1; linha_h 48 7 1 10 0 1].

(** Every timestamp moved by [d] seconds, the other columns kept. *)
Definition deslocar (d : Z) (df : DataFrame) : DataFrame :=
  map (fun r => mkLinha (timestamp r + d) (lamina_cm r) (vazao_m3h r)
                        (energia_kwh r) (chuva_mm r) (bomba_ligada r)) df.

(** The order of the severity tags: success < info < warning < error. *)
Definition posto (nivel : string) : nat :=
  if String.eqb nivel "success" then 0
  else if String.eqb nivel "info" then 1
  else if String.eqb nivel "warning" then 2
  else if String.eqb nivel "error" then 3
  else 0.

(** The efficiency rule does not fire on these values. *)
Definition sem_quebra_eficiencia (ef6 base : option Q) : Prop :=
  match ef6, base with
  | Some e, Some b => ~ (b * (115 # 100) < e)
  | _, _ => True
  end.

(** No threshold rule of [recomendacao_ia] fires on [df], whose last row is
    [r]. *)
Definition nenhuma_regra (df : DataFrame) (r : Linha) : Prop :=
  soma chuva_mm (desde (ts_max df) 24 df) < 10 /\
  6 < lamina_cm r /\ lamina_cm r < (19 # 2) /\
  sem_quebra_eficiencia (eficiencia_6h df) (base_ef df).

(** ** Rendering the recommendation and ordering periods *)

(** The Streamlit box the tab draws the messages in. *)
Inductive Caixa := CaixaSuccess | CaixaInfo | CaixaWarning | CaixaError.

(** [if nivel == "success": st.success ... elif "info" ... elif "warning"
    ... else: st.error] *)
Definition caixa_recomendacao (nivel : string) : Caixa :=
  if String.eqb nivel "success" then CaixaSuccess
  else if String.eqb nivel "info" then CaixaInfo
  else if String.eqb nivel "warning" then CaixaWarning
  else CaixaError.

(** The box of the dashboard tab; [None] when [recomendacao_ia(df_f)]
    raises. *)
Definition caixa_da_aba (p : Periodo) (df : DataFrame) : option Caixa :=
  option_map (fun st => caixa_recomendacao (snd st)) (snd (snd (aba_dashboard p df))).

(** Timestamps in non-decreasing order, as [sort_values("timestamp")]
    leaves them. *)
Fixpoint ordenado (df : DataFrame) : bool :=
  match df with
  | r1 :: ((r2 :: _) as rs) => (timestamp r1 <=? timestamp r2)%Z && ordenado rs
  | _ => true
  end.

(** Period [p] looks back no further than period [q]. *)
Definition periodo_le (p q : Periodo) : bool :=
  match janela_periodo p, janela_periodo q with
  | _, None => true
  | None, Some _ => false
  | Some a, Some b => (a <=? b)%Z
  end.

(** ** [gerar_dados_exemplo]

    The random draws are inputs: [Sorteios] holds the value of each call on
    [rng], by the array it fills, so a property proved for every [Sorteios]
    holds for every seed. *)

Record Sorteios := mkSorteios {
  (** per turn of [for _ in range(10)]: [rng.integers(0, n_horas)],
      [rng.integers(2, 8)], [rng.uniform(1, 6)] *)
  eventos_chuva : list (nat * nat * Q);
  u_bomba : list Q;             (** [rng.random(n_horas)] *)
  vazao_ligada : list Q;        (** [rng.normal(75, 12, n_horas)] *)
  vazao_desligada : list Q;     (** [rng.normal(5, 2, n_horas)] *)
  energia_ligada : list Q;      (** [rng.normal(55, 10, n_horas)] *)
  energia_desligada : list Q;   (** [rng.normal(2, 1, n_horas)] *)
  perdas : list Q               (** [rng.normal(0.02, 0.03)] for [i = 1 .. n_horas - 1] *)
}.

(** Element [i] of a numpy array. *)
Definition em (l : list Q) (i : nat) : Q := nth i l 0.

(** [np.clip(x, lo, hi)], [hi = None] for no upper bound. *)
Definition clip (lo : Q) (hi : option Q) (x : Q) : Q :=
  let y := if Qle_bool lo x then x else lo in
  match hi with
  | None => y
  | Some h => if Qle_bool y h then y else h
  end.

(** [arr[ini : ini + dur] += v] on the part of [arr] that starts at index
    [pos]; the slice stops at the end of the array. *)
Fixpoint somar_fatia_desde (pos ini dur : nat) (v : Q) (arr : list Q) : list Q :=
  match arr with
  | [] => []
  | x :: xs =>
      (if (ini <=? pos)%nat && (pos <? ini + dur)%nat then x + v else x)
        :: somar_fatia_desde (S pos) ini dur v xs
  end.

(** [chuva = np.zeros(n_horas)] and the ten [chuva[idx : idx + dur] += ...] *)
Definition chuva_gerada (n : nat) (s : Sorteios) : list Q :=
  fold_left (fun arr '(ini, dur, v) => somar_fatia_desde 0 ini dur v arr)
            (eventos_chuva s) (repeat 0 n).

(** [bomba_ligada = (rng.random(n_horas) > 0.35).astype(int)] *)
Definition bomba_gerada (s : Sorteios) (i : nat) : Z :=
  if Qlt_bool (35 # 100) (em (u_bomba s) i) then 1%Z else 0%Z.

(** [np.clip(np.where(bomba_ligada == 1, ..., ...), 0, None)] *)
Definition vazao_gerada (s : Sorteios) (i : nat) : Q :=
  clip 0 None (if (bomba_gerada s i =? 1)%Z then em (vazao_ligada s) i
               else em (vazao_desligada s) i).

Definition energia_gerada (s : Sorteios) (i : nat) : Q :=
  clip 0 None (if (bomba_gerada s i =? 1)%Z then em (energia_ligada s) i
               else em (energia_desligada s) i).

(** [lamina[i] = lamina[i - 1] + ganho_irrig + ganho_chuva - perda] for the
    indices [is], from [lamina[i - 1] = anterior]. *)
Fixpoint evolui_lamina (n : nat) (s : Sorteios) (anterior : Q) (is : list nat) : list Q :=
  match is with
  | [] => []
  | i :: r =>
      let ganho_irrig := vazao_gerada s i / 1200 in
      let ganho_chuva := em (chuva_gerada n s) i / 20 in
      let perda := em (perdas s) (i - 1) in
      let x := anterior + ganho_irrig + ganho_chuva - perda in
      x :: evolui_lamina n s x r
  end.

(** [lamina] before [np.clip(lamina, 4.5, 12.0)]. *)
Definition lamina_bruta (n : nat) (s : Sorteios) : list Q :=
  (15 # 2) :: evolui_lamina n s (15 # 2) (seq 1 (n - 1)).

(** Row [i] of the generated frame; [pd.date_range(end=now,
    periods=n_horas, freq="H")] puts it [n_horas - 1 - i] hours before
    [now]. *)
Definition linha_gerada (n : nat) (agora : Z) (s : Sorteios) (i : nat) : Linha :=
  mkLinha (agora - horas (Z.of_nat (n - 1 - i)))%Z
          (clip (9 # 2) (Some 12) (em (lamina_bruta n s) i))
          (vazao_gerada s i) (energia_gerada s i)
          (em (chuva_gerada n s) i) (bomba_gerada s i).

(** [gerar_dados_exemplo(n_horas)] with [now] the current hour; [None] is
    the [ValueError] of [rng.integers(0, 0)] when [n_horas = 0]. *)
Definition gerar_dados_exemplo (n : nat) (agora : Z) (s : Sorteios) : option DataFrame :=
  match n with
  | O => None
  | _ => Some (map (linha_gerada n agora s) (seq 0 n))
  end.

(** A draw of the generator for 30 hours, with three rain events. *)
Definition sorteios_exemplo : Sorteios :=
  mkSorteios [(3%nat, 4%nat, 2); (27%nat, 7%nat, 5); (12%nat, 2%nat, 1)]
             (repeat (1 # 2) 30) (repeat 75 30) (repeat 5 30)
             (repeat 55 30) (repeat 2 30) (repeat (1 # 50) 29).

(** ** [carregar_dados]

    A CSV file as [pd.read_csv] returns it: the column names and, per row,
    its cells in column order.  Column names are ASCII strings: the tests
    ["data" in c.lower()] and ["hora" in c.lower()] look for ASCII letters
    only, and no non-ASCII character lowers to one of [d, a, t, h, o, r]. *)

Record Tabela := mkTabela {
  colunas : list string;
  linhas : list (list string)
}.

(** [str.lower] on one ASCII character. *)
Definition minusculo_ascii (a : ascii) : ascii :=
  let n := nat_of_ascii a in
  if (65 <=? n)%nat && (n <=? 90)%nat then ascii_of_nat (n + 32) else a.

Fixpoint minusculo (s : string) : string :=
  match s with
  | EmptyString => EmptyString
  | String a r => String (minusculo_ascii a) (minusculo r)
  end.

(** Python's [sub in s] on strings. *)
Fixpoint contem (sub s : string) : bool :=
  String.prefix sub s ||
  match s with
  | EmptyString => false
  | String _ r => contem sub r
  end.

(** The position of column [c], [None] when [c not in df.columns]. *)
Fixpoint indice (c : string) (cs : list string) : option nat :=
  match cs with
  | [] => None
  | c' :: r => if String.eqb c c' then Some 0%nat else option_map S (indice c r)
  end.

(** [for c in df.columns: if "data" in c.lower() or "hora" in c.lower(): ... break] *)
Fixpoint primeira_coluna_tempo (cs : list string) : option nat :=
  match cs with
  | [] => None
  | c :: r =>
      if contem "data" (minusculo c) || contem "hora" (minusculo c) then Some 0%nat
      else option_map S (primeira_coluna_tempo r)
  end.

(** The column [df["timestamp"]] is read from after the [if]/[else]; [None]
    when neither branch sets it. *)
Definition coluna_tempo (cs : list string) : option nat :=
  match indice "timestamp" cs with
  | Some i => Some i
  | None => primeira_coluna_tempo cs
  end.

(** Cell [i] of a CSV row. *)
Definition celula (l : list string) (i : nat) : string := nth i l EmptyString.

(** A loaded row: the parsed timestamp and the cells of the CSV row. *)
Definition Registro := (Z * list string)%type.

Section Carga.

(** [pd.to_datetime(cell, errors="coerce")], in seconds; [None] is [NaT]. *)
Variable ler_data : string -> option Z.

(** [pd.to_datetime(df[c], errors="coerce")] and [dropna(subset=["timestamp"])]. *)
Fixpoint validas (i : nat) (ls : list (list string)) : list Registro :=
  match ls with
  | [] => []
  | l :: r =>
      match ler_data (celula l i) with
      | Some t => (t, l) :: validas i r
      | None => validas i r
      end
  end.

(** [sort_values("timestamp")].  numpy's default sort is not stable, so rows
    with equal timestamps may come out in another order; the properties
    below use only the order of the timestamps and the multiset of rows,
    which every sort gives. *)
Fixpoint inserir (x : Registro) (l : list Registro) : list Registro :=
  match l with
  | [] => [x]
  | y :: r => if (fst x <=? fst y)%Z then x :: y :: r else y :: inserir x r
  end.

Definition ordenar (l : list Registro) : list Registro := fold_right inserir [] l.

(** The CSV branch of [carregar_dados] after [pd.read_csv] has returned the
    table [t]; the exceptions of [pd.read_csv] itself (a file it cannot
    decode, a malformed row) happen before and are not modelled.  [None] is
    the [KeyError] of [dropna(subset=["timestamp"])] when no column was
    turned into ["timestamp"]. *)
Definition carregar_csv (t : Tabela) : option (list Registro) :=
  match coluna_tempo (colunas t) with
  | None => None
  | Some i => Some (ordenar (validas i (linhas t)))
  end.

End Carga.

(** Timestamps in non-decreasing order. *)
Fixpoint ordenado_reg (l : list Registro) : bool :=
  match l with
  | x :: ((y :: _) as r) => (fst x <=? fst y)%Z && ordenado_reg r
  | _ => true
  end.

(** A date parser for examples: a string of decimal digits is that many
    seconds, anything else is [NaT]. *)
Fixpoint ler_digitos_desde (acc : Z) (s : string) : option Z :=
  match s with
  | EmptyString => Some acc
  | String a r =>
      let n := nat_of_ascii a in
      if (48 <=? n)%nat && (n <=? 57)%nat
      then ler_digitos_desde (acc * 10 + Z.of_nat (n - 48))%Z r
      else None
  end.

Definition ler_segundos (s : string) : option Z :=
  match s with
  | EmptyString => None
  | _ => ler_digitos_desde 0 s
  end.

(** A CSV with a ["Data_Hora"] column, an unparsable row and rows out of order. *)
Definition tabela_exemplo : Tabela :=
  mkTabela ["id"; "Data_Hora"; "lamina_cm"]%string
           [["1"; "7200"; "7.5"]; ["2"; "abc"; "7.0"]; ["3"; "3600"; "8.0"];
            ["4"; "7200"; "6.9"]]%string.

(** ** Login, session and access log

    A Python [str] is the list of its code points. *)

Definition PyStr := list Z.

(** An ASCII literal of the source as a Python [str]. *)
Definition py (s : string) : PyStr :=
  map (fun a => Z.of_nat (nat_of_ascii a)) (list_ascii_of_string s).

Definition py_eqb (a b : PyStr) : bool :=
  if list_eq_dec Z.eq_dec a b then true else false.

(** [str.isspace] on one code point. *)
Definition espaco (c : Z) : bool :=
  ((9 <=? c) && (c <=? 13))%Z || ((28 <=? c) && (c <=? 32))%Z ||
  (c =? 133)%Z || (c =? 160)%Z || (c =? 5760)%Z ||
  ((8192 <=? c) && (c <=? 8202))%Z || (c =? 8232)%Z || (c =? 8233)%Z ||
  (c =? 8239)%Z || (c =? 8287)%Z || (c =? 12288)%Z.

Fixpoint tirar_inicio (s : PyStr) : PyStr :=
  match s with
  | [] => []
  | c :: r => if espaco c then tirar_inicio r else s
  end.

(** [str.strip()] *)
Definition strip (s : PyStr) : PyStr := rev (tirar_inicio (rev (tirar_inicio s))).

Definition ascii_py (s : PyStr) : bool := forallb (fun c => (c <? 128)%Z) s.

(** [hmac.compare_digest(a, b)] on two [str]; [None] is its [TypeError]
    ("comparing strings with non-ASCII characters is not supported"). *)
Definition compare_digest (a b : PyStr) : option bool :=
  if ascii_py a && ascii_py b then Some (py_eqb a b) else None.

(** [st.secrets] and [os.environ], with their values passed through [str]. *)
Record Config := mkConfig {
  segredos : list (string * PyStr);
  ambiente : list (string * PyStr)
}.

Fixpoint procurar (k : string) (m : list (string * PyStr)) : option PyStr :=
  match m with
  | [] => None
  | (k', v) :: r => if String.eqb k k' then Some v else procurar k r
  end.

(** [str(st.secrets.get(k, os.getenv(k, padrao)))] *)
Definition ler_config (cfg : Config) (k padrao : string) : PyStr :=
  match procurar k (segredos cfg) with
  | Some v => v
  | None =>
      match procurar k (ambiente cfg) with
      | Some v => v
      | None => py padrao
      end
  end.

Definition get_settings (cfg : Config) : PyStr * PyStr * PyStr :=
  (ler_config cfg "APP_USER" "admin",
   ler_config cfg "APP_PASSWORD" "admin",
   ler_config cfg "APP_EVALUATOR_NAME" "Avaliador").

Definition virgula : Z := 44%Z.
Definition nova_linha : Z := 10%Z.

(** [f"{ts},{event},{username},{evaluator}\n"] *)
Definition linha_log (ts ev u a : PyStr) : PyStr :=
  ts ++ [virgula] ++ ev ++ [virgula] ++ u ++ [virgula] ++ a ++ [nova_linha].

Definition cabecalho_log : PyStr := py "timestamp,event,user,evaluator" ++ [nova_linha].

(** [log_access_event(event, username, evaluator)] on the content of
    [logs/access_log.csv] ([None]: the file does not exist), with [ts] the
    [datetime.now().isoformat(timespec="seconds")] of the call; it returns
    the new content. *)
Definition log_access_event (ts ev u a : PyStr) (arq : option PyStr) : PyStr :=
  match arq with
  | None => cabecalho_log
  | Some c => c
  end ++ linha_log ts ev u a.

(** [st.session_state]: the keys the program uses, [None] when absent. *)
Record Sessao := mkSessao {
  s_authenticated : option bool;
  s_login_user : option PyStr;
  s_evaluator_name : option PyStr;
  s_logged_access : option bool
}.

Definition sessao_vazia : Sessao := mkSessao None None None None.

(** [st.session_state.get(k, False)] *)
Definition obter_bool (o : option bool) : bool :=
  match o with Some b => b | None => false end.

(** [st.session_state.get(k, padrao)] *)
Definition obter_str (o : option PyStr) (padrao : string) : PyStr :=
  match o with Some v => v | None => py padrao end.

(** The session and the content of the access log. *)
Definition Mundo := (Sessao * option PyStr)%type.

(** How [check_login()] ends: it returns, [st.rerun()] stops the script, or
    [compare_digest] raises. *)
Inductive Fim := Retorna (b : bool) | Rerun | ErroTipo.

(** [check_login()] with the form's [user], [password] and [submit]. *)
Definition check_login (cfg : Config) (ts : PyStr) (user password : PyStr) (submit : bool)
  (w : Mundo) : Fim * Mundo :=
  let '(ses, arq) := w in
  if obter_bool (s_authenticated ses) then (Retorna true, w) else
  let '(user_ok, pass_ok, evaluator) := get_settings cfg in
  if negb submit then (Retorna false, w) else
  match compare_digest (strip user) user_ok with
  | None => (ErroTipo, w)
  | Some ok_user =>
      match compare_digest password pass_ok with
      | None => (ErroTipo, w)
      | Some ok_pass =>
          if ok_user && ok_pass then
            if negb (obter_bool (s_logged_access ses)) then
              (Rerun, (mkSessao (Some true) (Some user_ok) (Some evaluator) (Some true),
                       Some (log_access_event ts (py "LOGIN_SUCCESS") user_ok evaluator arq)))
            else
              (Rerun, (mkSessao (Some true) (Some user_ok) (Some evaluator) (s_logged_access ses),
                       arq))
          else
            (Retorna false, (mkSessao (Some false) (s_login_user ses) (s_evaluator_name ses)
                                      (s_logged_access ses), arq))
      end
  end.

(** The sidebar's "Sair" button: [log_access_event("LOGOUT", ...)] with the
    [login_user] and [evaluator_name] read at the top of the page, then the
    session is cleared. *)
Definition sair (ts : PyStr) (w : Mundo) : Mundo :=
  let '(ses, arq) := w in
  let login_user := obter_str (s_login_user ses) "usuario" in
  let evaluator_name := obter_str (s_evaluator_name ses) "Avaliador" in
  (mkSessao (Some false) None None (Some false),
   Some (log_access_event ts (py "LOGOUT") login_user evaluator_name arq)).

(** The widget values of one run of the script. *)
Record Entrada := mkEntrada {
  e_user : PyStr;
  e_password : PyStr;
  e_submit : bool;
  e_sair : bool
}.

(** How a run ends: [st.stop()], an exception, [st.rerun()], or the
    dashboard is drawn. *)
Inductive Saida := Parou | ParouErro | Reexecuta | Painel.

(** One run of the script, up to the dashboard: [if not check_login():
    st.stop()], then the sidebar. *)
Definition executar (cfg : Config) (ts : PyStr) (e : Entrada) (w : Mundo) : Saida * Mundo :=
  match check_login cfg ts (e_user e) (e_password e) (e_submit e) w with
  | (ErroTipo, w') => (ParouErro, w')
  | (Rerun, w') => (Reexecuta, w')
  | (Retorna false, w') => (Parou, w')
  | (Retorna true, w') => if e_sair e then (Reexecuta, sair ts w') else (Painel, w')
  end.

(** The worlds a browser session reaches from a fresh session, whatever the
    log file holds and whatever is typed, at any time. *)
Inductive alcancavel (cfg : Config) : Mundo -> Prop :=
  | alc_inicio (arq : option PyStr) : alcancavel cfg (sessao_vazia, arq)
  | alc_passo (ts : PyStr) (e : Entrada) (w : Mundo) :
      alcancavel cfg w -> alcancavel cfg (snd (executar cfg ts e w)).

(** What holds of every reachable session: [logged_access] is only set
    while authenticated, and an authenticated session carries the
    configured user and evaluator. *)
Definition sessao_ok (cfg : Config) (ses : Sessao) : Prop :=
  (obter_bool (s_logged_access ses) = true -> obter_bool (s_authenticated ses) = true) /\
  (obter_bool (s_authenticated ses) = true ->
     s_login_user ses = Some (fst (fst (get_settings cfg))) /\
     s_evaluator_name ses = Some (snd (get_settings cfg))).

(** Python's [s.split(",")]. *)
Fixpoint dividir (s : PyStr) : list PyStr :=
  match s with
  | [] => [[]]
  | c :: r =>
      if (c =? virgula)%Z then [] :: dividir r
      else match dividir r with
           | [] => [[c]]
           | f :: fs => (c :: f) :: fs
           end
  end.

Definition conta_virgulas (s : PyStr) : nat := List.length (filter (fun c => (c =? virgula)%Z) s).

Definition config_padrao : Config := mkConfig [] [].

(** ** Store lemmas *)

Lemma bind_st_ok {A B} (c : ST A) (f : A -> ST B) m a m' :
  c m = Some (a, m') -> bind_st c f m = f a m'.
Proof. intros H. unfold bind_st. now rewrite H. Qed.

Lemma ler_ok l m d : nth_error m l = Some d -> ler l m = Some (d, m).
Proof. intros H. unfold ler. now rewrite H. Qed.

Lemma alocar_antigo (m : Memoria) l d x :
  nth_error m l = Some d -> nth_error (m ++ [x]) l = Some d.
Proof.
  intros H. rewrite nth_error_app1; [exact H|].
  apply nth_error_Some. congruence.
Qed.

Lemma alocar_novo (m : Memoria) x : nth_error (m ++ [x]) (List.length m) = Some x.
Proof. rewrite nth_error_app2, Nat.sub_diag; reflexivity. Qed.

Lemma selecionar_ok mask l m d :
  nth_error m l = Some d ->
  selecionar mask l m = Some (List.length m, m ++ [filter mask d]).
Proof. intros H. unfold selecionar. now rewrite (bind_st_ok _ _ _ _ _ (ler_ok _ _ _ H)). Qed.

Lemma copiar_ok l m d :
  nth_error m l = Some d -> copiar l m = Some (List.length m, m ++ [d]).
Proof. intros H. unfold copiar. now rewrite (bind_st_ok _ _ _ _ _ (ler_ok _ _ _ H)). Qed.

Create HintDb memoria.
#[local] Hint Resolve alocar_antigo alocar_novo : memoria.

(** One step of a run: rewrite the first bind whose command is a read, a
    copy or a selection of a frame the store holds. *)
Ltac passo :=
  first
    [ erewrite bind_st_ok by (apply ler_ok; eauto with memoria)
    | erewrite bind_st_ok by (apply copiar_ok; eauto with memoria)
    | erewrite bind_st_ok by (apply selecionar_ok; eauto with memoria) ].

(** ** General lemmas *)

Lemma ultima_linha_nao_vazia (df : DataFrame) :
  df <> [] -> exists u, ultima_linha df = Some u.
Proof.
  induction df as [|r rs IH]; intros H; [congruence|].
  destruct rs as [|r' rs]; [now exists r|].
  apply IH. discriminate.
Qed.

Lemma ultima_linha_vazia (df : DataFrame) :
  ultima_linha df = None -> df = [].
Proof.
  intros H. destruct df as [|r rs]; [reflexivity|].
  destruct (ultima_linha_nao_vazia (r :: rs)) as [u Hu]; [discriminate|congruence].
Qed.

(** ** Claims *)

(** C8. Neither [kpis_basicos] nor [recomendacao_ia] mutates its input: run
    on a non-empty frame held in the store, each returns what the pure
    function returns and leaves the frame at the input reference unchanged
    ([recomendacao_ia] only writes to its own copy and to the frames its
    masks allocate). *)
Theorem entrada_nao_mutada (m : Memoria) (l : Loc) (df : DataFrame)
  (Hl : nth_error m l = Some df) (Hne : df <> []) :
  (exists m', kpis_basicos_st l m = Some (kpis_basicos df, m')
              /\ nth_error m' l = Some df) /\
  (exists st m', recomendacao_ia_st l m = Some (st, m')
                 /\ recomendacao_ia df = Some st
                 /\ nth_error m' l = Some df).
Proof.
  split.
  - unfold kpis_basicos_st. do 3 passo. unfold ret_st. eexists. split.
    + destruct df as [|r rs]; [congruence|]. reflexivity.
    + eauto with memoria.
  - unfold recomendacao_ia_st. do 5 passo.
    unfold recomendacao_ia.
    destruct (ultima_linha df) as [u|] eqn:Hu.
    + do 3 passo. unfold ret_st. do 2 eexists.
      split; [reflexivity|]. split; [reflexivity|].
      eauto 10 with memoria.
    + exfalso. apply Hne. now apply ultima_linha_vazia.
Qed.

(** ** Comparisons *)

Lemma Qle_bool_false x y : Qle_bool x y = false <-> y < x.
Proof.
  split; intros H.
  - apply Qnot_le_lt. intros H'. apply Qle_bool_iff in H'. congruence.
  - destruct (Qle_bool x y) eqn:E; [|reflexivity].
    apply Qle_bool_iff in E. exfalso. exact (Qlt_not_le _ _ H E).
Qed.

Lemma Qlt_bool_iff x y : Qlt_bool x y = true <-> x < y.
Proof.
  unfold Qlt_bool. rewrite negb_true_iff. apply Qle_bool_false.
Qed.

Lemma Qlt_bool_false x y : Qlt_bool x y = false <-> y <= x.
Proof.
  unfold Qlt_bool. rewrite negb_false_iff. apply Qle_bool_iff.
Qed.

(** Turn the boolean comparisons of the hypotheses into propositions. *)
Ltac comparacoes :=
  repeat match goal with
  | H : Qle_bool _ _ = true |- _ => apply Qle_bool_iff in H
  | H : Qle_bool _ _ = false |- _ => apply Qle_bool_false in H
  | H : Qlt_bool _ _ = true |- _ => apply Qlt_bool_iff in H
  | H : Qlt_bool _ _ = false |- _ => apply Qlt_bool_false in H
  end.

(** Case analysis on every test of the rules. *)
Ltac casos_regras :=
  unfold aplicar_regras, regra_padrao, regra_eficiencia, regra;
  repeat match goal with
  | |- context [if ?b then _ else _] =>
      match type of b with bool => destruct b eqn:? end
  | |- context [match ?o with Some _ => _ | None => _ end] => destruct o eqn:?
  end; simpl.

(** C10. [recomendacao_ia] never returns ["info"]: every result it returns
    has severity ["success"], ["warning"] or ["error"]. *)
Theorem nivel_nunca_info (df : DataFrame) (st : Estado) :
  recomendacao_ia df = Some st ->
  snd st <> "info"%string /\
  In (snd st) ["success"; "warning"; "error"]%string.
Proof.
  unfold recomendacao_ia. destruct (ultima_linha df) as [u|]; [|discriminate].
  intros H. injection H as <-. casos_regras;
  split; try discriminate; simpl; tauto.
Qed.

Lemma nivel_nunca_info_witness :
  recomendacao_ia exemplo_normal = Some ([MsgPadrao], "success"%string) /\
  snd ([MsgPadrao], "success"%string) <> "info"%string /\
  In (snd ([MsgPadrao], "success"%string)) ["success"; "warning"; "error"]%string.
Proof.
  assert (H : recomendacao_ia exemplo_normal = Some ([MsgPadrao], "success"%string))
    by (vm_compute; reflexivity).
  split; [exact H|]. exact (nivel_nunca_info exemplo_normal _ H).
Defined.

(** C1. The low-depth rule does not keep severity ["error"]: the efficiency
    rule comes after it and sets ["warning"]. On [exemplo_lamina_baixa] the
    last row has depth 5.0 cm (<= 6.0), the low-depth message is emitted,
    the last 6 hours use 1 kWh/m³ against a baseline of 0.415 kWh/m³, and
    the returned severity is ["warning"]. *)
Theorem lamina_baixa_rebaixada_para_warning :
  (exists r, ultima_linha exemplo_lamina_baixa = Some r /\ lamina_cm r <= 6) /\
  recomendacao_ia exemplo_lamina_baixa
  = Some ([MsgLaminaBaixa 5; MsgEficiencia (70 # 70) (83 # 200)], "warning"%string).
Proof.
  split.
  - eexists. split; [vm_compute; reflexivity|]. vm_compute. discriminate.
  - vm_compute. reflexivity.
Qed.

(** The sum of a column whose values are all non-negative is non-negative. *)
Lemma soma_nao_negativa (col : Linha -> Q) (df : DataFrame) :
  Forall (fun r => 0 <= col r) df -> 0 <= soma col df.
Proof.
  induction 1 as [|r rs Hr _ IH]; simpl; [apply Qle_refl|].
  rewrite <- (Qplus_0_l 0). apply Qplus_le_compat; assumption.
Qed.

(** C2. For a non-empty frame whose flows are all >= 0, [kpis_basicos]
    returns a snapshot (it does not fail), and its efficiency is [None]
    exactly when the total volume is 0; [None] is what the snapshot holds,
    no number stands in for it. *)
Theorem kpis_eficiencia_ausente_sse_volume_nulo (df : DataFrame)
  (Hne : df <> [])
  (Hvazao : Forall (fun r => 0 <= vazao_m3h r) df) :
  exists k, kpis_basicos df = Some k /\
    total_volume k = soma vazao_m3h df /\
    (eficiencia k = None <-> total_volume k == 0).
Proof.
  pose proof (soma_nao_negativa _ _ Hvazao) as H0.
  destruct df as [|r rs]; [congruence|].
  eexists. split; [reflexivity|]. split; [reflexivity|].
  cbn [eficiencia total_volume]. unfold razao.
  destruct (Qlt_bool 0 (soma vazao_m3h (r :: rs))) eqn:E; comparacoes; split; intros H.
  - discriminate.
  - rewrite H in E. exact (False_ind _ (Qlt_irrefl _ E)).
  - apply Qle_antisym; assumption.
  - reflexivity.
Qed.

Lemma kpis_eficiencia_ausente_sse_volume_nulo_witness :
  exemplo_normal <> [] /\
  Forall (fun r => 0 <= vazao_m3h r) exemplo_normal /\
  exists k, kpis_basicos exemplo_normal = Some k /\
    total_volume k = soma vazao_m3h exemplo_normal /\
    (eficiencia k = None <-> total_volume k == 0).
Proof.
  assert (Hne : exemplo_normal <> []) by discriminate.
  assert (Hv : Forall (fun r => 0 <= vazao_m3h r) exemplo_normal)
    by (repeat constructor; vm_compute; discriminate).
  split; [exact Hne|]. split; [exact Hv|].
  exact (kpis_eficiencia_ausente_sse_volume_nulo exemplo_normal Hne Hv).
Defined.

(** C4. Rules add up: when the rain of the last 24 hours is >= 10 mm and the
    last depth is >= 9.5 cm but not <= 6.0 cm, both messages are in the list
    and the severity is exactly ["warning"]. *)
Theorem chuva_e_lamina_alta_somam
  (df : DataFrame) (r : Linha)
  (Hr : ultima_linha df = Some r)
  (Hchuva : 10 <= soma chuva_mm (desde (ts_max df) 24 df))
  (Halta : 19 # 2 <= lamina_cm r)
  (Hbaixa : ~ lamina_cm r <= 6) :
  exists msgs, recomendacao_ia df = Some (msgs, "warning"%string) /\
    In (MsgChuva (soma chuva_mm (desde (ts_max df) 24 df))) msgs /\
    In (MsgLaminaAlta (lamina_cm r)) msgs.
Proof.
  unfold recomendacao_ia. rewrite Hr.
  apply Qle_bool_iff in Hchuva. apply Qle_bool_iff in Halta.
  assert (Hb : Qle_bool (lamina_cm r) 6 = false)
    by (apply Qle_bool_false, Qnot_le_lt; exact Hbaixa).
  unfold aplicar_regras, regra. rewrite Hchuva, Halta, Hb. simpl.
  unfold regra_eficiencia, regra, regra_padrao.
  destruct (eficiencia_6h df), (base_ef df);
    try destruct (Qlt_bool _ _); simpl; eexists; (split; [reflexivity|]); simpl; tauto.
Qed.

Lemma chuva_e_lamina_alta_somam_witness :
  exists msgs, recomendacao_ia exemplo_chuva_lamina_alta = Some (msgs, "warning"%string) /\
    In (MsgChuva (soma chuva_mm (desde (ts_max exemplo_chuva_lamina_alta) 24
                                       exemplo_chuva_lamina_alta))) msgs /\
    In (MsgLaminaAlta 10) msgs.
Proof.
  apply (chuva_e_lamina_alta_somam exemplo_chuva_lamina_alta (linha_h 11 10 1 10 2 1)).
  - vm_compute. reflexivity.
  - vm_compute. discriminate.
  - vm_compute. discriminate.
  - vm_compute. intros H. apply H. reflexivity.
Defined.

(** C5. The high-depth bound is inclusive: a last depth of exactly 9.5 cm
    emits the high-depth message and a severity at least ["warning"]. *)
Theorem lamina_9_5_dispara_regra_alta
  (df : DataFrame) (r : Linha)
  (Hr : ultima_linha df = Some r)
  (H95 : lamina_cm r == 19 # 2) :
  exists msgs nivel, recomendacao_ia df = Some (msgs, nivel) /\
    In (MsgLaminaAlta (lamina_cm r)) msgs /\
    (posto "warning" <= posto nivel)%nat.
Proof.
  unfold recomendacao_ia. rewrite Hr.
  assert (Ha : Qle_bool (19 # 2) (lamina_cm r) = true)
    by (apply Qle_bool_iff; rewrite H95; apply Qle_refl).
  assert (Hb : Qle_bool (lamina_cm r) 6 = false)
    by (apply Qle_bool_false; rewrite H95; reflexivity).
  unfold aplicar_regras, regra. rewrite Ha, Hb.
  unfold regra_eficiencia, regra, regra_padrao.
  destruct (Qle_bool 10 _), (eficiencia_6h df), (base_ef df);
    try destruct (Qlt_bool _ _); simpl;
    do 2 eexists; (split; [reflexivity|]); simpl; split; try tauto; vm_compute; lia.
Qed.

Lemma lamina_9_5_dispara_regra_alta_witness :
  exists msgs nivel, recomendacao_ia exemplo_lamina_9_5 = Some (msgs, nivel) /\
    In (MsgLaminaAlta (19 # 2)) msgs /\
    (posto "warning" <= posto nivel)%nat.
Proof.
  apply (lamina_9_5_dispara_regra_alta exemplo_lamina_9_5 (linha_h 11 (19 # 2) 1 10 0 1)).
  - vm_compute. reflexivity.
  - reflexivity.
Defined.

(** ** Moving every timestamp *)

Lemma fold_max_deslocar (d a : Z) (l : list Z) :
  fold_left Z.max (map (fun t => (t + d)%Z) l) (a + d)%Z = (fold_left Z.max l a + d)%Z.
Proof.
  revert a. induction l as [|t l IH]; intros a; simpl; [reflexivity|].
  rewrite Z.add_max_distr_r. apply IH.
Qed.

Lemma ts_max_deslocar (d : Z) (df : DataFrame) :
  df <> [] -> ts_max (deslocar d df) = (ts_max df + d)%Z.
Proof.
  destruct df as [|r rs]; intros H; [congruence|].
  unfold ts_max, deslocar. simpl. rewrite map_map. simpl.
  rewrite <- fold_max_deslocar, map_map. reflexivity.
Qed.

Lemma desde_deslocar (d agora h : Z) (df : DataFrame) :
  desde (agora + d) h (deslocar d df) = deslocar d (desde agora h df).
Proof.
  induction df as [|r rs IH]; simpl; [reflexivity|].
  replace (agora + d - horas h <=? timestamp r + d)%Z
    with (agora - horas h <=? timestamp r)%Z
    by (destruct (Z.leb_spec (agora - horas h) (timestamp r));
        destruct (Z.leb_spec (agora + d - horas h) (timestamp r + d)); lia).
  destruct (agora - horas h <=? timestamp r)%Z; simpl; now rewrite IH.
Qed.

Lemma df_ligada_deslocar (d : Z) (df : DataFrame) :
  df_ligada (deslocar d df) = deslocar d (df_ligada df).
Proof.
  induction df as [|r rs IH]; simpl; [reflexivity|].
  destruct (bomba_ligada r =? 1)%Z; simpl; now rewrite IH.
Qed.

Lemma ultima_linha_deslocar (d : Z) (df : DataFrame) :
  ultima_linha (deslocar d df)
  = option_map (fun r => mkLinha (timestamp r + d) (lamina_cm r) (vazao_m3h r)
                                 (energia_kwh r) (chuva_mm r) (bomba_ligada r))
               (ultima_linha df).
Proof.
  induction df as [|r rs IH]; [reflexivity|].
  destruct rs as [|r' rs]; [reflexivity|]. exact IH.
Qed.

(** A sum of a column other than [timestamp] does not see the move. *)
Lemma soma_deslocar (col : Linha -> Q) (d : Z) (df : DataFrame) :
  (forall r, col (mkLinha (timestamp r + d) (lamina_cm r) (vazao_m3h r)
                          (energia_kwh r) (chuva_mm r) (bomba_ligada r)) = col r) ->
  soma col (deslocar d df) = soma col df.
Proof.
  intros Hcol. unfold soma, deslocar.
  induction df as [|r rs IH]; simpl; [reflexivity|].
  rewrite Hcol, IH. reflexivity.
Qed.

Lemma length_deslocar (d : Z) (df : DataFrame) :
  List.length (deslocar d df) = List.length df.
Proof. apply length_map. Qed.

(** C3. [recomendacao_ia] is a function of the frame alone: on a non-empty
    frame it returns a result, and it returns the same result when every
    timestamp is moved by the same amount, since "now" is the frame's own
    latest timestamp and no clock is read. *)
Theorem recomendacao_deterministica (df : DataFrame) (Hne : df <> []) :
  exists st, recomendacao_ia df = Some st /\
    forall d, recomendacao_ia (deslocar d df) = Some st.
Proof.
  destruct (ultima_linha_nao_vazia df Hne) as [u Hu].
  exists (aplicar_regras (soma chuva_mm (desde (ts_max df) 24 df)) (lamina_cm u)
                         (eficiencia_6h df) (base_ef df)).
  split; [unfold recomendacao_ia; now rewrite Hu|].
  intros d. unfold recomendacao_ia, eficiencia_6h, base_ef, ef_janela, base_ligada.
  rewrite ultima_linha_deslocar, Hu, ts_max_deslocar by exact Hne.
  rewrite !desde_deslocar, df_ligada_deslocar, length_deslocar.
  rewrite !(soma_deslocar chuva_mm), !(soma_deslocar energia_kwh),
          !(soma_deslocar vazao_m3h) by reflexivity.
  reflexivity.
Qed.

Lemma recomendacao_deterministica_witness :
  exists st, recomendacao_ia exemplo_normal = Some st /\
    forall d, recomendacao_ia (deslocar d exemplo_normal) = Some st.
Proof. apply recomendacao_deterministica. discriminate. Defined.

Lemma entrada_nao_mutada_witness :
  (exists m', kpis_basicos_st 0%nat [exemplo_normal] = Some (kpis_basicos exemplo_normal, m')
              /\ nth_error m' 0%nat = Some exemplo_normal) /\
  (exists st m', recomendacao_ia_st 0%nat [exemplo_normal] = Some (st, m')
                 /\ recomendacao_ia exemplo_normal = Some st
                 /\ nth_error m' 0%nat = Some exemplo_normal).
Proof.
  apply (entrada_nao_mutada [exemplo_normal] 0%nat exemplo_normal);
    [reflexivity | discriminate].
Defined.

(** A contradiction between two hypotheses on the rule values. *)
Ltac contradiz :=
  match goal with
  | H : ?x <= ?y, H' : ?y < ?x |- _ => exact (False_ind _ (Qlt_not_le _ _ H' H))
  | H : ~ ?P, H' : ?P |- _ => exact (False_ind _ (H H'))
  end.

(** C6. [base_ef] is [None] unless more than 10 rows have the pump on and
    their volume is > 0 (so exactly 10 such rows give [None]); when the
    baseline or [eficiencia_6h] is [None], [recomendacao_ia] still returns
    a result on a non-empty frame and emits no efficiency message. *)
Theorem base_ef_ausente (df : DataFrame) :
  (base_ef df = None <->
     ~ ((10 < List.length (df_ligada df))%nat /\ 0 < soma vazao_m3h (df_ligada df))) /\
  (List.length (df_ligada df) = 10%nat -> base_ef df = None) /\
  (df <> [] -> base_ef df = None \/ eficiencia_6h df = None ->
     exists msgs nivel, recomendacao_ia df = Some (msgs, nivel) /\
       forall e b, ~ In (MsgEficiencia e b) msgs).
Proof.
  assert (Hiff : base_ef df = None <->
     ~ ((10 < List.length (df_ligada df))%nat /\ 0 < soma vazao_m3h (df_ligada df))).
  { unfold base_ef, base_ligada.
    destruct (Nat.ltb_spec 10 (List.length (df_ligada df)));
      destruct (Qlt_bool 0 (soma vazao_m3h (df_ligada df))) eqn:E; comparacoes; simpl;
      split; intros H'; try discriminate; try reflexivity.
    - exfalso. apply H'. split; assumption.
    - intros [_ Hv]. contradiz.
    - intros [Hl _]. lia.
    - intros [Hl _]. lia. }
  split; [exact Hiff|]. split.
  - intros H10. apply Hiff. intros [Hl _]. lia.
  - intros Hne Hnone.
    destruct (ultima_linha_nao_vazia df Hne) as [u Hu].
    unfold recomendacao_ia. rewrite Hu.
    set (st := aplicar_regras _ _ _ _).
    exists (fst st), (snd st). split; [now rewrite <- surjective_pairing|].
    subst st. destruct Hnone as [Hb|He]; [rewrite Hb|rewrite He];
      casos_regras; intros e b; simpl; intuition discriminate.
Qed.

Lemma base_ef_ausente_witness :
  List.length (df_ligada exemplo_dez_ligadas) = 10%nat /\
  base_ef exemplo_dez_ligadas = None /\
  exists msgs nivel, recomendacao_ia exemplo_dez_ligadas = Some (msgs, nivel) /\
    forall e b, ~ In (MsgEficiencia e b) msgs.
Proof.
  assert (H10 : List.length (df_ligada exemplo_dez_ligadas) = 10%nat)
    by (vm_compute; reflexivity).
  destruct (base_ef_ausente exemplo_dez_ligadas) as [_ [Hdez Hrec]].
  assert (Hb : base_ef exemplo_dez_ligadas = None) by exact (Hdez H10).
  split; [exact H10|]. split; [exact Hb|].
  apply Hrec; [discriminate | left; exact Hb].
Defined.

(** C7. On a non-empty frame the severity is ["success"] exactly when the
    list has one message and no threshold rule fires (rain of the last 24 h
    < 10 mm, last depth strictly between 6.0 and 9.5 cm, no efficiency
    breach or a missing efficiency/baseline); that message is then the
    "within the observed pattern" one. *)
Theorem sucesso_sse_nenhuma_regra (df : DataFrame) (r : Linha)
  (Hr : ultima_linha df = Some r) :
  exists msgs nivel, recomendacao_ia df = Some (msgs, nivel) /\
    (nivel = "success"%string <-> List.length msgs = 1%nat /\ nenhuma_regra df r) /\
    (nivel = "success"%string -> msgs = [MsgPadrao]).
Proof.
  unfold recomendacao_ia. rewrite Hr.
  set (st := aplicar_regras _ _ _ _).
  exists (fst st), (snd st). split; [now rewrite <- surjective_pairing|].
  subst st. unfold nenhuma_regra, sem_quebra_eficiencia.
  casos_regras; comparacoes;
    (split; [split|]);
    solve
      [ discriminate
      | intros _; reflexivity
      | intros _; repeat split; try assumption; try reflexivity; intros Hq; contradiz
      | intros (_ & Hc & Hl1 & Hl2 & Hq); contradiz ].
Qed.

Lemma sucesso_sse_nenhuma_regra_witness :
  exists msgs nivel, recomendacao_ia exemplo_normal = Some (msgs, nivel) /\
    (nivel = "success"%string <->
       List.length msgs = 1%nat /\ nenhuma_regra exemplo_normal (linha_h 11 7 1 10 0 1)) /\
    (nivel = "success"%string -> msgs = [MsgPadrao]).
Proof.
  apply sucesso_sse_nenhuma_regra. vm_compute. reflexivity.
Defined.

(** [filter f l] keeps all of [l] exactly when [f] holds on every element. *)
Lemma filter_tudo {A} (f : A -> bool) (l : list A) :
  filter f l = l <-> Forall (fun x => f x = true) l.
Proof.
  assert (Hlen : forall l', (List.length (filter f l') <= List.length l')%nat).
  { induction l' as [|x l' IH]; simpl; [lia|]. destruct (f x); simpl; lia. }
  induction l as [|x l IH]; simpl; [split; auto|].
  destruct (f x) eqn:E; split; intros H.
  - injection H as H. constructor; [exact E|]. now apply IH.
  - inversion H as [|? ? _ Hl]; subst. f_equal. now apply IH.
  - exfalso. specialize (Hlen l). rewrite H in Hlen. simpl in Hlen. lia.
  - inversion H; congruence.
Qed.

(** C9, refuted. With the period "Últimas 24h" and a frame of two rows 48
    hours apart, the frame passed to [recomendacao_ia] is the filtered one
    (the last row only), not the full frame. *)
Lemma recomendacao_recebe_frame_filtrado :
  exists s, In (ChamaRecomendacao s) (fst (aba_dashboard Ultimas24h exemplo_dois_dias)) /\
    s <> exemplo_dois_dias.
Proof.
  exists [linha_h 48 7 1 10 0 1]. split.
  - vm_compute. right. left. reflexivity.
  - intros H. apply (f_equal (@List.length Linha)) in H. discriminate.
Qed.

(** C9, as the code does it. The dashboard tab passes [recomendacao_ia] the
    period-filtered frame [df_f], the same frame [kpis_basicos] gets;
    [df_f] is the full frame for "Tudo", and for the other periods exactly
    when every row lies within the period before the latest timestamp. *)
Theorem recomendacao_recebe_df_f (p : Periodo) (df s : DataFrame) :
  (In (ChamaRecomendacao s) (fst (aba_dashboard p df)) <-> s = filtrar_periodo p df) /\
  (In (ChamaKpis s) (fst (aba_dashboard p df)) <-> s = filtrar_periodo p df) /\
  (filtrar_periodo p df = df <->
     match janela_periodo p with
     | None => True
     | Some h => Forall (fun r => (ts_max df - horas h <= timestamp r)%Z) df
     end).
Proof.
  split.
  - simpl. split.
    + intros [H|[H|[]]]; congruence.
    + intros ->. right. left. reflexivity.
  - split.
    + simpl. split.
      * intros [H|[H|[]]]; congruence.
      * intros ->. left. reflexivity.
    + unfold filtrar_periodo. destruct (janela_periodo p) as [h|]; [|tauto].
      unfold desde. split; intros H.
      * apply filter_tudo in H. revert H. apply Forall_impl. intros r. apply Z.leb_le.
      * apply filter_tudo. revert H. apply Forall_impl. intros r. apply Z.leb_le.
Qed.

(** * Further properties of the code *)

(** ** The latest timestamp *)

Lemma fold_max_ge_init (l : list Z) (a : Z) : (a <= fold_left Z.max l a)%Z.
Proof.
  revert a. induction l as [|x l IH]; intros a; simpl; [lia|].
  specialize (IH (Z.max a x)). lia.
Qed.

Lemma fold_max_ge (l : list Z) (a x : Z) : In x l -> (x <= fold_left Z.max l a)%Z.
Proof.
  revert a. induction l as [|y l IH]; intros a Hx; simpl in *; [contradiction|].
  destruct Hx as [->|Hx]; [|now apply IH].
  pose proof (fold_max_ge_init l (Z.max a x)). lia.
Qed.

Lemma fold_max_atingido (l : list Z) (a : Z) :
  fold_left Z.max l a = a \/ In (fold_left Z.max l a) l.
Proof.
  revert a. induction l as [|x l IH]; intros a; simpl; [now left|].
  destruct (IH (Z.max a x)) as [H|H]; [|now right; right].
  rewrite H. destruct (Z.max_spec a x) as [[_ E]|[_ E]]; rewrite E; [now right; left|now left].
Qed.

Lemma ts_max_maior (df : DataFrame) (r : Linha) :
  In r df -> (timestamp r <= ts_max df)%Z.
Proof.
  destruct df as [|r0 rs]; intros H; [contradiction|].
  simpl. destruct H as [<-|H]; [apply fold_max_ge_init|].
  apply fold_max_ge. now apply in_map.
Qed.

Lemma ts_max_atingido (df : DataFrame) :
  df <> [] -> exists r, In r df /\ timestamp r = ts_max df.
Proof.
  destruct df as [|r0 rs]; intros H; [congruence|]. simpl.
  destruct (fold_max_atingido (map timestamp rs) (timestamp r0)) as [E|E].
  - exists r0. split; [now left|]. now rewrite E.
  - apply in_map_iff in E. destruct E as [r [E Hr]].
    exists r. split; [now right|]. exact E.
Qed.

Lemma fold_max_ordenado (r : Linha) (rs : DataFrame) (u : Linha) :
  ordenado (r :: rs) = true -> ultima_linha (r :: rs) = Some u ->
  fold_left Z.max (map timestamp rs) (timestamp r) = timestamp u.
Proof.
  revert r. induction rs as [|r2 rs IH]; intros r Hord Hu.
  - simpl in *. congruence.
  - simpl in Hord. apply andb_true_iff in Hord. destruct Hord as [Hle Hord].
    apply Z.leb_le in Hle. simpl. rewrite Z.max_r by exact Hle.
    apply IH; [exact Hord|exact Hu].
Qed.

(** On a frame in timestamp order, [df.iloc[-1]] is the row of the latest
    timestamp: the row [recomendacao_ia] reads the current depth from sits
    at its "now". *)
Theorem ultima_linha_no_agora (df : DataFrame) (u : Linha)
  (Hord : ordenado df = true) (Hu : ultima_linha df = Some u) :
  timestamp u = ts_max df.
Proof.
  destruct df as [|r rs]; [discriminate|].
  symmetry. exact (fold_max_ordenado r rs u Hord Hu).
Qed.

Lemma ultima_linha_no_agora_witness :
  ordenado exemplo_normal = true /\
  ultima_linha exemplo_normal = Some (linha_h 11 7 1 10 0 1) /\
  timestamp (linha_h 11 7 1 10 0 1) = ts_max exemplo_normal.
Proof.
  assert (Ho : ordenado exemplo_normal = true) by (vm_compute; reflexivity).
  assert (Hu : ultima_linha exemplo_normal = Some (linha_h 11 7 1 10 0 1))
    by (vm_compute; reflexivity).
  split; [exact Ho|]. split; [exact Hu|].
  exact (ultima_linha_no_agora _ _ Ho Hu).
Defined.

(** ** The dashboard tab *)

(** A row shown for a period is also shown for every longer period:
    24 h within 3 days within 7 days within everything. *)
Theorem periodos_encaixados (p q : Periodo) (df : DataFrame) (r : Linha)
  (Hpq : periodo_le p q = true) :
  In r (filtrar_periodo p df) -> In r (filtrar_periodo q df).
Proof.
  unfold periodo_le in Hpq. unfold filtrar_periodo, desde.
  destruct (janela_periodo p) as [a|] eqn:Ep, (janela_periodo q) as [b|] eqn:Eq;
    try discriminate; intros H; try exact H.
  - apply Z.leb_le in Hpq. apply filter_In in H. destruct H as [Hin Ht].
    apply filter_In. split; [exact Hin|].
    apply Z.leb_le in Ht. apply Z.leb_le. unfold horas in *. lia.
  - apply filter_In in H. tauto.
Qed.

Lemma periodos_encaixados_witness :
  periodo_le Ultimas24h Ultimos3dias = true /\
  In (linha_h 11 7 1 10 0 1) (filtrar_periodo Ultimas24h exemplo_normal) /\
  In (linha_h 11 7 1 10 0 1) (filtrar_periodo Ultimos3dias exemplo_normal).
Proof.
  assert (Hin : In (linha_h 11 7 1 10 0 1) (filtrar_periodo Ultimas24h exemplo_normal))
    by (vm_compute; repeat (first [left; reflexivity|right])).
  split; [reflexivity|]. split; [exact Hin|].
  exact (periodos_encaixados Ultimas24h Ultimos3dias exemplo_normal _ eq_refl Hin).
Defined.

(** The latest row is kept by every period filter. *)
Lemma filtrar_periodo_guarda_agora (p : Periodo) (df : DataFrame) (r : Linha) :
  In r df -> timestamp r = ts_max df -> In r (filtrar_periodo p df).
Proof.
  intros Hin Ht. unfold filtrar_periodo, desde.
  destruct (janela_periodo p) as [h|] eqn:E; [|exact Hin].
  apply filter_In. split; [exact Hin|]. apply Z.leb_le.
  assert (0 <= h)%Z by (destruct p; simpl in E; congruence || (injection E as <-; lia)).
  unfold horas. lia.
Qed.

Lemma aba_dashboard_recomendacao (p : Periodo) (df : DataFrame) :
  df <> [] -> exists st, snd (snd (aba_dashboard p df)) = Some st.
Proof.
  intros Hne. destruct (ts_max_atingido df Hne) as [r [Hin Ht]].
  pose proof (filtrar_periodo_guarda_agora p df r Hin Ht) as Hf.
  assert (Hne' : filtrar_periodo p df <> []) by (intros E; rewrite E in Hf; exact Hf).
  destruct (ultima_linha_nao_vazia _ Hne') as [u Hu].
  simpl. unfold recomendacao_ia. rewrite Hu. eexists. reflexivity.
Qed.

(** For every period, the dashboard's [recomendacao_ia(df_f)] call returns
    a result exactly when the loaded frame is non-empty (an empty one
    raises [IndexError]), and the period filter always keeps every row at
    the latest timestamp. *)
Theorem aba_dashboard_sem_erro (p : Periodo) (df : DataFrame) :
  ((exists st, snd (snd (aba_dashboard p df)) = Some st) <-> df <> []) /\
  (forall r, In r df -> timestamp r = ts_max df -> In r (filtrar_periodo p df)).
Proof.
  split; [|intros r; apply filtrar_periodo_guarda_agora].
  split.
  - intros [st H] ->. destruct p; discriminate.
  - apply aba_dashboard_recomendacao.
Qed.

Lemma aba_dashboard_kpis (p : Periodo) (df : DataFrame) :
  df <> [] -> exists k, fst (snd (aba_dashboard p df)) = Some k.
Proof.
  intros Hne. destruct (ts_max_atingido df Hne) as [r [Hin Ht]].
  pose proof (filtrar_periodo_guarda_agora p df r Hin Ht) as Hf.
  simpl. destruct (filtrar_periodo p df); [contradiction|]. eexists. reflexivity.
Qed.

Lemma aplicar_regras_nivel (c l : Q) (e b : option Q) :
  In (snd (aplicar_regras c l e b)) ["success"; "warning"; "error"]%string.
Proof. casos_regras; simpl; tauto. Qed.

(** On a non-empty frame the tab draws the recommendation in a success,
    warning or error box, never in the info box. *)
Theorem caixa_nunca_info (p : Periodo) (df : DataFrame) (Hne : df <> []) :
  exists c, caixa_da_aba p df = Some c /\ In c [CaixaSuccess; CaixaWarning; CaixaError].
Proof.
  destruct (aba_dashboard_recomendacao p df Hne) as [st Hst].
  unfold caixa_da_aba. rewrite Hst. eexists. split; [reflexivity|].
  simpl in Hst. unfold recomendacao_ia in Hst.
  destruct (ultima_linha (filtrar_periodo p df)); [|discriminate].
  injection Hst as <-.
  destruct (aplicar_regras_nivel
              (soma chuva_mm (desde (ts_max (filtrar_periodo p df)) 24 (filtrar_periodo p df)))
              (lamina_cm l) (eficiencia_6h (filtrar_periodo p df)) (base_ef (filtrar_periodo p df)))
    as [E|[E|[E|[]]]]; rewrite <- E; simpl; tauto.
Qed.

Lemma caixa_nunca_info_witness :
  exists c, caixa_da_aba Ultimas24h exemplo_normal = Some c /\
    In c [CaixaSuccess; CaixaWarning; CaixaError].
Proof. apply caixa_nunca_info. discriminate. Defined.

(** ** [gerar_dados_exemplo] *)

Lemma ordenado_map_seq (f : nat -> Linha) (a m : nat) :
  (forall i, (timestamp (f i) <= timestamp (f (S i)))%Z) ->
  ordenado (map f (seq a m)) = true.
Proof.
  intros Hf. revert a. induction m as [|m IH]; intros a; [reflexivity|].
  destruct m as [|m]; [reflexivity|].
  specialize (IH (S a)). simpl in IH |- *. rewrite IH, andb_true_r.
  apply Z.leb_le, Hf.
Qed.

Lemma ultima_linha_app (l : DataFrame) (x : Linha) : ultima_linha (l ++ [x]) = Some x.
Proof.
  induction l as [|y l IH]; [reflexivity|].
  simpl. destruct (l ++ [x]) eqn:E; [destruct l; discriminate|]. exact IH.
Qed.

Lemma linha_gerada_crescente (n : nat) (agora : Z) (s : Sorteios) (i : nat) :
  (timestamp (linha_gerada n agora s i) <= timestamp (linha_gerada n agora s (S i)))%Z.
Proof. simpl. unfold horas. lia. Qed.

Lemma gerar_ts_max (n : nat) (agora : Z) (s : Sorteios) (df : DataFrame) :
  gerar_dados_exemplo n agora s = Some df -> ts_max df = agora.
Proof.
  destruct n as [|m]; intros H; [discriminate|].
  assert (Hdf : map (linha_gerada (S m) agora s) (seq 0 (S m)) = df)
    by (injection H; auto).
  assert (Hu : ultima_linha df = Some (linha_gerada (S m) agora s m))
    by (rewrite <- Hdf, seq_S, map_app; apply ultima_linha_app).
  assert (Ho : ordenado df = true)
    by (rewrite <- Hdf; apply ordenado_map_seq, linha_gerada_crescente).
  destruct df as [|r rs]; [discriminate|].
  unfold ts_max. rewrite (fold_max_ordenado r rs _ Ho Hu). simpl. unfold horas. lia.
Qed.

(** For [n_horas >= 1] the generator returns [n_horas] rows in timestamp
    order, one hour apart, the last one at [now]. *)
Theorem gerar_dados_serie_horaria (n : nat) (agora : Z) (s : Sorteios)
  (Hn : (1 <= n)%nat) :
  exists df, gerar_dados_exemplo n agora s = Some df /\
    List.length df = n /\ ordenado df = true /\ ts_max df = agora /\
    (forall i, (S i < n)%nat ->
       timestamp (nth (S i) df (linha_gerada n agora s 0))
       = (timestamp (nth i df (linha_gerada n agora s 0)) + 3600)%Z).
Proof.
  destruct n as [|m]; [lia|].
  exists (map (linha_gerada (S m) agora s) (seq 0 (S m))).
  split; [reflexivity|]. split; [now rewrite length_map, length_seq|].
  split; [apply ordenado_map_seq, linha_gerada_crescente|].
  split; [now apply (gerar_ts_max (S m) agora s)|].
  intros i Hi. rewrite !map_nth, !seq_nth by lia. simpl. unfold horas. lia.
Qed.

Lemma gerar_dados_serie_horaria_witness :
  exists df, gerar_dados_exemplo 30 0 sorteios_exemplo = Some df /\
    List.length df = 30%nat /\ ordenado df = true /\ ts_max df = 0%Z /\
    (forall i, (S i < 30)%nat ->
       timestamp (nth (S i) df (linha_gerada 30 0 sorteios_exemplo 0))
       = (timestamp (nth i df (linha_gerada 30 0 sorteios_exemplo 0)) + 3600)%Z).
Proof. apply gerar_dados_serie_horaria. lia. Defined.

Lemma clip_inferior (lo x : Q) : lo <= clip lo None x.
Proof.
  unfold clip. destruct (Qle_bool lo x) eqn:E; [now apply Qle_bool_iff|apply Qle_refl].
Qed.

Lemma clip_intervalo (lo hi x : Q) :
  lo <= hi -> lo <= clip lo (Some hi) x /\ clip lo (Some hi) x <= hi.
Proof.
  intros Hlh. pose proof (clip_inferior lo x) as H0. unfold clip in *.
  destruct (Qle_bool (if Qle_bool lo x then x else lo) hi) eqn:E.
  - split; [exact H0|]. now apply Qle_bool_iff.
  - split; [exact Hlh|apply Qle_refl].
Qed.

Lemma somar_fatia_nao_negativa (pos ini dur : nat) (v : Q) (arr : list Q) :
  0 <= v -> Forall (fun x => 0 <= x) arr ->
  Forall (fun x => 0 <= x) (somar_fatia_desde pos ini dur v arr).
Proof.
  intros Hv H. revert pos. induction H as [|x xs Hx _ IH]; intros pos; simpl; [constructor|].
  constructor; [|apply IH].
  destruct (_ && _); [|exact Hx].
  rewrite <- (Qplus_0_l 0). apply Qplus_le_compat; assumption.
Qed.

Lemma chuva_gerada_nao_negativa (n : nat) (s : Sorteios) :
  Forall (fun '(_, _, v) => 0 <= v) (eventos_chuva s) ->
  Forall (fun x => 0 <= x) (chuva_gerada n s).
Proof.
  unfold chuva_gerada. intros Hev.
  assert (H0 : Forall (fun x => 0 <= x) (repeat 0 n))
    by (apply Forall_forall; intros x Hx; apply repeat_spec in Hx; subst; apply Qle_refl).
  revert H0. generalize (repeat 0 n). induction Hev as [|[[ini dur] v] evs Hv _ IH];
    intros arr Harr; simpl; [exact Harr|].
  apply IH. now apply somar_fatia_nao_negativa.
Qed.

Lemma em_nao_negativa (l : list Q) (i : nat) :
  Forall (fun x => 0 <= x) l -> 0 <= em l i.
Proof.
  intros H. unfold em. destruct (Nat.lt_ge_cases i (List.length l)) as [Hi|Hi].
  - rewrite Forall_forall in H. apply H, nth_In, Hi.
  - rewrite nth_overflow by exact Hi. apply Qle_refl.
Qed.

(** Every generated row has a depth in [4.5, 12], non-negative flow and
    energy, a pump flag of 0 or 1, and, as [rng.uniform(1, 6)] draws
    non-negative amounts, non-negative rain. *)
Theorem gerar_dados_limites (n : nat) (agora : Z) (s : Sorteios) (df : DataFrame)
  (Hchuva : Forall (fun '(_, _, v) => 0 <= v) (eventos_chuva s))
  (Hg : gerar_dados_exemplo n agora s = Some df) :
  Forall (fun r => 9 # 2 <= lamina_cm r /\ lamina_cm r <= 12 /\
                   0 <= vazao_m3h r /\ 0 <= energia_kwh r /\ 0 <= chuva_mm r /\
                   (bomba_ligada r = 0 \/ bomba_ligada r = 1)%Z) df.
Proof.
  destruct n as [|m]; [discriminate|].
  assert (Hdf : map (linha_gerada (S m) agora s) (seq 0 (S m)) = df)
    by (injection Hg; auto).
  subst df. rewrite Forall_forall. intros r Hr.
  apply in_map_iff in Hr. destruct Hr as [i [<- _]]. simpl.
  destruct (clip_intervalo (9 # 2) 12 (em (lamina_bruta (S m) s) i)) as [H1 H2];
    [discriminate|].
  repeat split; try assumption.
  - apply clip_inferior.
  - apply clip_inferior.
  - now apply em_nao_negativa, chuva_gerada_nao_negativa.
  - unfold bomba_gerada. destruct (Qlt_bool _ _); [now right|now left].
Qed.

Lemma gerar_dados_limites_witness :
  exists df, gerar_dados_exemplo 30 0 sorteios_exemplo = Some df /\
  Forall (fun r => 9 # 2 <= lamina_cm r /\ lamina_cm r <= 12 /\
                   0 <= vazao_m3h r /\ 0 <= energia_kwh r /\ 0 <= chuva_mm r /\
                   (bomba_ligada r = 0 \/ bomba_ligada r = 1)%Z) df.
Proof.
  eexists. split; [reflexivity|].
  apply (gerar_dados_limites 30 0 sorteios_exemplo); [|reflexivity].
  repeat constructor; discriminate.
Defined.

Lemma conta_desde (k a m : nat) :
  List.length (filter (fun i => (k <=? i)%nat) (seq a m)) = (a + m - Nat.max k a)%nat.
Proof.
  revert a. induction m as [|m IH]; intros a; simpl; [lia|].
  destruct (Nat.leb_spec k a); simpl; rewrite IH; lia.
Qed.

(** On the generated frame the trailing window of [h] hours holds
    [min(h + 1, n_horas)] rows: both ends count, so the 24 h window of the
    default 240 rows holds 25 and the 6 h window 7. *)
Theorem janela_gerada (n : nat) (agora : Z) (s : Sorteios) (h : nat) (df : DataFrame)
  (Hg : gerar_dados_exemplo n agora s = Some df) :
  List.length (desde (ts_max df) (Z.of_nat h) df) = Nat.min (S h) n.
Proof.
  rewrite (gerar_ts_max n agora s df Hg).
  destruct n as [|m]; [discriminate|].
  assert (Hdf : map (linha_gerada (S m) agora s) (seq 0 (S m)) = df)
    by (injection Hg; auto).
  subst df. unfold desde. rewrite filter_map_swap, length_map.
  rewrite (filter_ext_in _ (fun i => (m - h <=? i)%nat)).
  - rewrite conta_desde. lia.
  - intros i Hi. apply in_seq in Hi. unfold linha_gerada. cbn [timestamp].
    destruct (Nat.leb_spec (m - h) i), (Z.leb_spec (agora - horas (Z.of_nat h))
                                         (agora - horas (Z.of_nat (S m - 1 - i))));
      try reflexivity; unfold horas in *; lia.
Qed.

Lemma janela_gerada_witness :
  exists df, gerar_dados_exemplo 30 0 sorteios_exemplo = Some df /\
    List.length (desde (ts_max df) (Z.of_nat 24) df) = 25%nat.
Proof.
  eexists. split; [reflexivity|].
  apply (janela_gerada 30 0 sorteios_exemplo 24). reflexivity.
Defined.

(** ** [carregar_dados] *)




Lemma inserir_perm (x : Registro) (l : list Registro) : Permutation (inserir x l) (x :: l).
Proof.
  induction l as [|y r IH]; simpl; [reflexivity|].
  destruct (fst x <=? fst y)%Z; [reflexivity|].
  rewrite IH. apply perm_swap.
Qed.

Lemma ordenar_perm (l : list Registro) : Permutation (ordenar l) l.
Proof.
  induction l as [|x r IH]; simpl; [reflexivity|].
  rewrite inserir_perm. now apply perm_skip.
Qed.

Lemma ordenado_reg_cons (a : Registro) (l : list Registro) :
  ordenado_reg (a :: l) = true <->
  (forall b, hd_error l = Some b -> (fst a <= fst b)%Z) /\ ordenado_reg l = true.
Proof.
  destruct l as [|b l]; simpl.
  - split; [|reflexivity]. intros _. split; [discriminate|reflexivity].
  - rewrite andb_true_iff, Z.leb_le. split.
    + intros [H1 H2]. split; [|exact H2]. intros b' Hb. injection Hb as <-. exact H1.
    + intros [H1 H2]. split; [apply H1; reflexivity|exact H2].
Qed.

Lemma hd_inserir (x : Registro) (l : list Registro) (b : Registro) :
  hd_error (inserir x l) = Some b -> b = x \/ hd_error l = Some b.
Proof.
  destruct l as [|y r]; simpl.
  - intros H. injection H as <-. now left.
  - destruct (fst x <=? fst y)%Z; simpl; intros H; injection H as <-; auto.
Qed.

Lemma inserir_ordenado (x : Registro) (l : list Registro) :
  ordenado_reg l = true -> ordenado_reg (inserir x l) = true.
Proof.
  induction l as [|y r IH]; intros H; [reflexivity|].
  simpl inserir. destruct (Z.leb_spec (fst x) (fst y)) as [Hxy|Hxy].
  - apply ordenado_reg_cons. split; [|exact H].
    intros b Hb. simpl in Hb. injection Hb as <-. exact Hxy.
  - apply ordenado_reg_cons in H as [Hhd Hr].
    apply ordenado_reg_cons. split; [|now apply IH].
    intros b Hb. apply hd_inserir in Hb as [->|Hb]; [lia|now apply Hhd].
Qed.

Lemma ordenar_ordenado (l : list Registro) : ordenado_reg (ordenar l) = true.
Proof. induction l as [|x r IH]; [reflexivity|]. now apply inserir_ordenado. Qed.

Lemma validas_in (ler_data : string -> option Z) (i : nat) (ls : list (list string))
  (t : Z) (l : list string) :
  In (t, l) (validas ler_data i ls) <-> In l ls /\ ler_data (celula l i) = Some t.
Proof.
  induction ls as [|l0 r IH]; simpl; [tauto|].
  destruct (ler_data (celula l0 i)) as [t0|] eqn:E; simpl; rewrite IH.
  - split.
    + intros [Heq|[Hin Hl]]; [injection Heq as <- <-; auto|auto].
    + intros [[<-|Hin] Hl]; [left; congruence|right; auto].
  - split.
    + intros [Hin Hl]; auto.
    + intros [[<-|Hin] Hl]; [congruence|auto].
Qed.

(** The loaded rows are in timestamp order and are, up to order, the rows
    of the CSV whose time cell parses, each with its parsed timestamp. *)
Theorem carregar_csv_ordenado (ler_data : string -> option Z) (t : Tabela)
  (rs : list Registro) (H : carregar_csv ler_data t = Some rs) :
  exists i, coluna_tempo (colunas t) = Some i /\ ordenado_reg rs = true /\
    Permutation rs (validas ler_data i (linhas t)).
Proof.
  unfold carregar_csv in H. destruct (coluna_tempo (colunas t)) as [i|]; [|discriminate].
  injection H as <-. exists i. split; [reflexivity|].
  split; [apply ordenar_ordenado|apply ordenar_perm].
Qed.

Lemma carregar_csv_ordenado_witness :
  carregar_csv ler_segundos tabela_exemplo
  = Some [(3600%Z, ["3"; "3600"; "8.0"]%string); (7200%Z, ["1"; "7200"; "7.5"]%string);
          (7200%Z, ["4"; "7200"; "6.9"]%string)] /\
  exists i, coluna_tempo (colunas tabela_exemplo) = Some i /\
    ordenado_reg [(3600%Z, ["3"; "3600"; "8.0"]%string); (7200%Z, ["1"; "7200"; "7.5"]%string);
                  (7200%Z, ["4"; "7200"; "6.9"]%string)] = true /\
    Permutation [(3600%Z, ["3"; "3600"; "8.0"]%string); (7200%Z, ["1"; "7200"; "7.5"]%string);
                 (7200%Z, ["4"; "7200"; "6.9"]%string)]
                (validas ler_segundos i (linhas tabela_exemplo)).
Proof.
  split; [reflexivity|]. apply carregar_csv_ordenado. reflexivity.
Defined.

(** A CSV row is kept, with timestamp [ts], exactly when its cell in the
    time column parses to [ts]: [dropna] removes the [NaT] rows and nothing
    else. *)
Theorem carregar_csv_linhas (ler_data : string -> option Z) (t : Tabela)
  (rs : list Registro) (H : carregar_csv ler_data t = Some rs) :
  exists i, coluna_tempo (colunas t) = Some i /\
    forall ts l, In (ts, l) rs <-> In l (linhas t) /\ ler_data (celula l i) = Some ts.
Proof.
  unfold carregar_csv in H. destruct (coluna_tempo (colunas t)) as [i|]; [|discriminate].
  injection H as <-. exists i. split; [reflexivity|].
  intros ts l. rewrite <- validas_in. split; apply Permutation_in;
    [|symmetry]; apply ordenar_perm.
Qed.

Lemma carregar_csv_linhas_witness :
  carregar_csv ler_segundos tabela_exemplo
  = Some [(3600%Z, ["3"; "3600"; "8.0"]%string); (7200%Z, ["1"; "7200"; "7.5"]%string);
          (7200%Z, ["4"; "7200"; "6.9"]%string)] /\
  exists i, coluna_tempo (colunas tabela_exemplo) = Some i /\
    forall ts l, In (ts, l) [(3600%Z, ["3"; "3600"; "8.0"]%string);
                             (7200%Z, ["1"; "7200"; "7.5"]%string);
                             (7200%Z, ["4"; "7200"; "6.9"]%string)]
                 <-> In l (linhas tabela_exemplo) /\ ler_segundos (celula l i) = Some ts.
Proof.
  split; [reflexivity|]. apply carregar_csv_linhas. reflexivity.
Defined.

(** ** Login, session and access log *)

Lemma py_eqb_spec (a b : PyStr) : py_eqb a b = true <-> a = b.
Proof. unfold py_eqb. destruct (list_eq_dec Z.eq_dec a b); split; congruence. Qed.

(** A submitted form passes [check_login] exactly in these cases. *)
Lemma check_login_rerun (cfg : Config) (ts user pw : PyStr) (w : Mundo) :
  fst (check_login cfg ts user pw true w) = Rerun <->
  obter_bool (s_authenticated (fst w)) = false /\
  strip user = fst (fst (get_settings cfg)) /\ pw = snd (fst (get_settings cfg)) /\
  ascii_py (strip user) = true /\ ascii_py pw = true.
Proof.
  destruct w as [ses arq]. unfold check_login. cbn [fst].
  destruct (obter_bool (s_authenticated ses)).
  { split; [discriminate|intros [H _]; discriminate]. }
  destruct (get_settings cfg) as [[u_ok p_ok] ev]. cbn [fst snd negb].
  unfold compare_digest.
  destruct (ascii_py (strip user)) eqn:A1, (ascii_py u_ok) eqn:A2; cbn [andb];
    try (split; [discriminate|intros (_ & H1 & _ & H4 & _); subst; congruence]).
  destruct (ascii_py pw) eqn:A3, (ascii_py p_ok) eqn:A4; cbn [andb];
    try (split; [discriminate|intros (_ & _ & H2 & _ & H5); subst; congruence]).
  destruct (py_eqb (strip user) u_ok) eqn:E1, (py_eqb pw p_ok) eqn:E2; cbn [andb];
    rewrite ?py_eqb_spec in E1, E2.
  - destruct (negb (obter_bool (s_logged_access ses))); simpl; tauto.
  - split; [discriminate|]. intros (_ & _ & H & _). apply py_eqb_spec in H. congruence.
  - split; [discriminate|]. intros (_ & H & _). apply py_eqb_spec in H. congruence.
  - split; [discriminate|]. intros (_ & H & _). apply py_eqb_spec in H. congruence.
Qed.

(** A submitted form logs the user in exactly when no session is open, the
    stripped user name equals the configured user, the password equals the
    configured password as typed, and both are ASCII. *)
Theorem check_login_sucesso_sse (cfg : Config) (ts user pw : PyStr) (w : Mundo) :
  fst (check_login cfg ts user pw true w) = Rerun <->
  obter_bool (s_authenticated (fst w)) = false /\
  strip user = fst (fst (get_settings cfg)) /\ pw = snd (fst (get_settings cfg)) /\
  ascii_py (strip user) = true /\ ascii_py pw = true.
Proof. apply check_login_rerun. Qed.

(** [check_login] raises exactly when a form is submitted while no session
    is open and one of the four strings compared (the stripped user name,
    the configured user, the typed and the configured password) holds a
    non-ASCII character; both comparisons run before the [and]. *)
Theorem check_login_erro_sse (cfg : Config) (ts user pw : PyStr) (submit : bool) (w : Mundo) :
  fst (check_login cfg ts user pw submit w) = ErroTipo <->
  obter_bool (s_authenticated (fst w)) = false /\ submit = true /\
  (ascii_py (strip user) = false \/ ascii_py (fst (fst (get_settings cfg))) = false \/
   ascii_py pw = false \/ ascii_py (snd (fst (get_settings cfg))) = false).
Proof.
  destruct w as [ses arq]. unfold check_login. cbn [fst].
  destruct (obter_bool (s_authenticated ses)).
  { split; [discriminate|intros [H _]; discriminate]. }
  destruct (get_settings cfg) as [[u_ok p_ok] ev]. cbn [fst snd].
  destruct submit; cbn [negb].
  2: { split; [discriminate|intros (_ & H & _); discriminate]. }
  unfold compare_digest.
  destruct (ascii_py (strip user)), (ascii_py u_ok), (ascii_py pw), (ascii_py p_ok);
    cbn [andb]; try (split; [intros _; intuition discriminate|reflexivity]);
    split; try (intros (_ & _ & H); intuition discriminate);
    destruct (py_eqb _ _ && py_eqb _ _);
    try destruct (negb (obter_bool (s_logged_access ses))); discriminate.
Qed.

Lemma sessao_ok_alcancavel (cfg : Config) (w : Mundo) :
  alcancavel cfg w -> sessao_ok cfg (fst w).
Proof.
  induction 1 as [arq|ts e [ses arq] _ IH].
  - split; discriminate.
  - cbn [fst] in IH. unfold executar, check_login.
    destruct (obter_bool (s_authenticated ses)) eqn:A.
    { destruct (e_sair e); cbn -[get_settings]; [split; discriminate|exact IH]. }
    destruct (get_settings cfg) as [[u_ok p_ok] ev] eqn:G.
    destruct (negb (e_submit e)); [exact IH|].
    destruct (compare_digest (strip (e_user e)) u_ok) as [ok_u|]; [|exact IH].
    destruct (compare_digest (e_password e) p_ok) as [ok_p|]; [|exact IH].
    destruct (ok_u && ok_p).
    + destruct (negb (obter_bool (s_logged_access ses))); cbn -[get_settings];
        (split; [reflexivity|intros _; rewrite G; split; reflexivity]).
    + cbn -[get_settings]. split; [|discriminate].
      intros Hl. destruct IH as [I1 _]. specialize (I1 Hl). congruence.
Qed.

(** Every session a browser reaches keeps [logged_access] only while
    authenticated, and an authenticated session holds the configured user
    and evaluator names. *)
Theorem sessao_autenticada_invariante (cfg : Config) (w : Mundo) (Ha : alcancavel cfg w) :
  (obter_bool (s_logged_access (fst w)) = true -> obter_bool (s_authenticated (fst w)) = true) /\
  (obter_bool (s_authenticated (fst w)) = true ->
     s_login_user (fst w) = Some (fst (fst (get_settings cfg))) /\
     s_evaluator_name (fst w) = Some (snd (get_settings cfg))).
Proof. exact (sessao_ok_alcancavel cfg w Ha). Qed.

(** The world after one successful login from a fresh session. *)
Definition mundo_logado : Mundo :=
  snd (executar config_padrao (py "2025-01-01T00:00:00")
                (mkEntrada (py " admin ") (py "admin") true false) (sessao_vazia, None)).

Lemma sessao_autenticada_invariante_witness :
  alcancavel config_padrao mundo_logado /\
  (obter_bool (s_logged_access (fst mundo_logado)) = true ->
     obter_bool (s_authenticated (fst mundo_logado)) = true) /\
  (obter_bool (s_authenticated (fst mundo_logado)) = true ->
     s_login_user (fst mundo_logado) = Some (fst (fst (get_settings config_padrao))) /\
     s_evaluator_name (fst mundo_logado) = Some (snd (get_settings config_padrao))).
Proof.
  assert (Ha : alcancavel config_padrao mundo_logado) by (apply alc_passo, alc_inicio).
  split; [exact Ha|]. exact (sessao_autenticada_invariante config_padrao mundo_logado Ha).
Defined.

(** In every reachable session a successful login appends exactly one
    [LOGIN_SUCCESS] row, for the configured user and evaluator, and leaves
    the session authenticated with [logged_access] set: the
    [if not logged_access] guard is never false when it is reached. *)
Theorem login_registra_uma_vez (cfg : Config) (ts user pw : PyStr) (submit : bool)
  (w w' : Mundo) (Ha : alcancavel cfg w)
  (H : check_login cfg ts user pw submit w = (Rerun, w')) :
  w' = (mkSessao (Some true) (Some (fst (fst (get_settings cfg))))
                 (Some (snd (get_settings cfg))) (Some true),
        Some (log_access_event ts (py "LOGIN_SUCCESS") (fst (fst (get_settings cfg)))
                               (snd (get_settings cfg)) (snd w))).
Proof.
  apply sessao_ok_alcancavel in Ha. destruct w as [ses arq]. destruct Ha as [I1 _].
  cbn [fst snd] in *. unfold check_login in H.
  destruct (obter_bool (s_authenticated ses)) eqn:A; [discriminate|].
  destruct (obter_bool (s_logged_access ses)) eqn:L; [specialize (I1 eq_refl); discriminate|].
  destruct (get_settings cfg) as [[u_ok p_ok] ev]. cbn [fst snd].
  destruct (negb submit); [discriminate|].
  destruct (compare_digest (strip user) u_ok) as [ok_u|]; [|discriminate].
  destruct (compare_digest pw p_ok) as [ok_p|]; [|discriminate].
  destruct (ok_u && ok_p); [|discriminate].
  simpl in H. injection H as <-. reflexivity.
Qed.

Lemma login_registra_uma_vez_witness :
  exists w', check_login config_padrao (py "T") (py "admin") (py "admin") true
               (sessao_vazia, Some []) = (Rerun, w') /\
  w' = (mkSessao (Some true) (Some (fst (fst (get_settings config_padrao))))
                 (Some (snd (get_settings config_padrao))) (Some true),
        Some (log_access_event (py "T") (py "LOGIN_SUCCESS")
                (fst (fst (get_settings config_padrao)))
                (snd (get_settings config_padrao)) (Some []))).
Proof.
  eexists. split; [reflexivity|].
  apply (login_registra_uma_vez config_padrao (py "T") (py "admin") (py "admin") true
           (sessao_vazia, Some [])); [apply alc_inicio|reflexivity].
Defined.

(** In a reachable authenticated session, "Sair" appends one [LOGOUT] row
    naming the configured user and evaluator (never the defaults
    ["usuario"] / ["Avaliador"] of the [get] calls), clears the session and
    reruns. *)
Theorem sair_registra_usuario (cfg : Config) (ts : PyStr) (e : Entrada) (w : Mundo)
  (Ha : alcancavel cfg w) (Hs : obter_bool (s_authenticated (fst w)) = true)
  (He : e_sair e = true) :
  executar cfg ts e w =
  (Reexecuta,
   (mkSessao (Some false) None None (Some false),
    Some (log_access_event ts (py "LOGOUT") (fst (fst (get_settings cfg)))
                           (snd (get_settings cfg)) (snd w)))).
Proof.
  apply sessao_ok_alcancavel in Ha. destruct w as [ses arq]. destruct Ha as [_ I2].
  cbn [fst snd] in *. destruct (I2 Hs) as [U V].
  unfold executar, check_login. rewrite Hs, He. simpl. now rewrite U, V.
Qed.

Lemma sair_registra_usuario_witness :
  alcancavel config_padrao mundo_logado /\
  obter_bool (s_authenticated (fst mundo_logado)) = true /\
  executar config_padrao (py "T") (mkEntrada [] [] false true) mundo_logado =
  (Reexecuta,
   (mkSessao (Some false) None None (Some false),
    Some (log_access_event (py "T") (py "LOGOUT") (fst (fst (get_settings config_padrao)))
                           (snd (get_settings config_padrao)) (snd mundo_logado)))).
Proof.
  assert (Ha : alcancavel config_padrao mundo_logado) by (apply alc_passo, alc_inicio).
  assert (Hs : obter_bool (s_authenticated (fst mundo_logado)) = true) by reflexivity.
  split; [exact Ha|]. split; [exact Hs|].
  apply sair_registra_usuario; [exact Ha|exact Hs|reflexivity].
Defined.

(** A run draws the dashboard only when it starts in an authenticated
    session of the configured user, and such a run changes neither the
    session nor the access log. *)
Theorem painel_so_autenticado (cfg : Config) (ts : PyStr) (e : Entrada) (w w' : Mundo)
  (Ha : alcancavel cfg w) (H : executar cfg ts e w = (Painel, w')) :
  w' = w /\ obter_bool (s_authenticated (fst w)) = true /\
  s_login_user (fst w) = Some (fst (fst (get_settings cfg))).
Proof.
  apply sessao_ok_alcancavel in Ha. destruct w as [ses arq]. destruct Ha as [_ I2].
  cbn [fst snd] in *. unfold executar, check_login in H.
  destruct (obter_bool (s_authenticated ses)) eqn:A.
  - destruct (e_sair e); [discriminate|]. injection H as <-.
    split; [reflexivity|]. split; [reflexivity|]. now apply I2.
  - destruct (get_settings cfg) as [[u_ok p_ok] ev].
    destruct (negb (e_submit e)); [discriminate|].
    destruct (compare_digest (strip (e_user e)) u_ok) as [ok_u|]; [|discriminate].
    destruct (compare_digest (e_password e) p_ok) as [ok_p|]; [|discriminate].
    destruct (ok_u && ok_p); [|discriminate].
    destruct (negb (obter_bool (s_logged_access ses))); discriminate.
Qed.

Lemma painel_so_autenticado_witness :
  alcancavel config_padrao mundo_logado /\
  executar config_padrao (py "T") (mkEntrada [] [] false false) mundo_logado
    = (Painel, mundo_logado) /\
  mundo_logado = mundo_logado /\ obter_bool (s_authenticated (fst mundo_logado)) = true /\
  s_login_user (fst mundo_logado) = Some (fst (fst (get_settings config_padrao))).
Proof.
  assert (Ha : alcancavel config_padrao mundo_logado) by (apply alc_passo, alc_inicio).
  assert (H : executar config_padrao (py "T") (mkEntrada [] [] false false) mundo_logado
              = (Painel, mundo_logado)) by reflexivity.
  split; [exact Ha|]. split; [exact H|].
  exact (painel_so_autenticado config_padrao (py "T") _ mundo_logado mundo_logado Ha H).
Defined.

Lemma tirar_inicio_espacos (p s : PyStr) :
  forallb espaco p = true -> tirar_inicio (p ++ s) = tirar_inicio s.
Proof.
  induction p as [|c p IH]; simpl; [reflexivity|].
  intros H. apply andb_prop in H as [Hc Hp]. rewrite Hc. now apply IH.
Qed.

Lemma forallb_rev_espaco (p : PyStr) : forallb espaco p = true -> forallb espaco (rev p) = true.
Proof.
  rewrite !forallb_forall. intros H c Hc. apply H. now apply in_rev.
Qed.

Lemma tirar_inicio_fixo (u : PyStr) :
  (forall c, hd_error u = Some c -> espaco c = false) -> tirar_inicio u = u.
Proof.
  destruct u as [|c u]; simpl; [reflexivity|]. intros H. now rewrite (H c eq_refl).
Qed.

(** [str.strip()] removes exactly the whitespace put around a string that
    neither starts nor ends with whitespace. *)
Lemma strip_envolto (p u q : PyStr) :
  forallb espaco p = true -> forallb espaco q = true ->
  (forall c, hd_error u = Some c -> espaco c = false) ->
  (forall c, hd_error (rev u) = Some c -> espaco c = false) ->
  strip (p ++ u ++ q) = u.
Proof.
  intros Hp Hq H1 H2. unfold strip. rewrite tirar_inicio_espacos by exact Hp.
  destruct u as [|c u'].
  - simpl. rewrite <- (app_nil_r q), tirar_inicio_espacos by exact Hq. reflexivity.
  - cbn [app tirar_inicio]. rewrite (H1 c eq_refl).
    change (c :: u' ++ q) with ((c :: u') ++ q).
    rewrite rev_app_distr, tirar_inicio_espacos by (now apply forallb_rev_espaco).
    rewrite tirar_inicio_fixo by exact H2. apply rev_involutive.
Qed.

(** With no session open and ASCII credentials that do not start or end
    with whitespace, the configured user name is accepted with any
    whitespace around it, non-ASCII whitespace such as U+00A0 or U+3000
    included (it is stripped before the ASCII check), while the password
    must be typed exactly: the same whitespace around it is refused. *)
Theorem login_ignora_espacos_do_usuario (cfg : Config) (ts : PyStr) (w : Mundo) (p q : PyStr)
  (Hw : obter_bool (s_authenticated (fst w)) = false)
  (Hp : forallb espaco p = true) (Hq : forallb espaco q = true)
  (Hu1 : forall c, hd_error (fst (fst (get_settings cfg))) = Some c -> espaco c = false)
  (Hu2 : forall c, hd_error (rev (fst (fst (get_settings cfg)))) = Some c -> espaco c = false)
  (Hau : ascii_py (fst (fst (get_settings cfg))) = true)
  (Hap : ascii_py (snd (fst (get_settings cfg))) = true) :
  fst (check_login cfg ts (p ++ fst (fst (get_settings cfg)) ++ q)
                   (snd (fst (get_settings cfg))) true w) = Rerun /\
  (p ++ q <> [] ->
   fst (check_login cfg ts (fst (fst (get_settings cfg)))
                    (p ++ snd (fst (get_settings cfg)) ++ q) true w) <> Rerun).
Proof.
  split.
  - apply check_login_rerun. rewrite strip_envolto by assumption. auto.
  - intros Hpq. rewrite check_login_rerun. intros (_ & _ & Heq & _).
    apply (f_equal (@List.length Z)) in Heq. rewrite !length_app in Heq.
    apply Hpq. destruct p, q; simpl in *; [reflexivity|lia|lia|lia].
Qed.

Lemma login_ignora_espacos_do_usuario_witness :
  fst (check_login config_padrao (py "T") ([160] ++ py "admin" ++ [32; 12288])%Z
                   (py "admin") true (sessao_vazia, None)) = Rerun /\
  (([160] ++ [32; 12288])%Z <> [] ->
   fst (check_login config_padrao (py "T") (py "admin")
                    ([160] ++ py "admin" ++ [32; 12288])%Z true (sessao_vazia, None)) <> Rerun).
Proof.
  apply (login_ignora_espacos_do_usuario config_padrao (py "T") (sessao_vazia, None)
           [160%Z] [32%Z; 12288%Z]); try reflexivity;
    intros c Hc; vm_compute in Hc; injection Hc as <-; reflexivity.
Defined.

Lemma conta_virgulas_app (x y : PyStr) :
  conta_virgulas (x ++ y) = (conta_virgulas x + conta_virgulas y)%nat.
Proof. unfold conta_virgulas. now rewrite filter_app, length_app. Qed.

Lemma dividir_length (s : PyStr) : List.length (dividir s) = S (conta_virgulas s).
Proof.
  unfold conta_virgulas. induction s as [|c r IH]; simpl; [reflexivity|].
  destruct (c =? virgula)%Z; simpl; [now rewrite IH|].
  destruct (dividir r); simpl in *; [discriminate|exact IH].
Qed.

Lemma dividir_sem_virgula_app (x y : PyStr) :
  conta_virgulas x = 0%nat -> dividir (x ++ virgula :: y) = x :: dividir y.
Proof.
  unfold conta_virgulas. induction x as [|c x IH]; cbn [app dividir filter]; intros H.
  - reflexivity.
  - destruct (c =? virgula)%Z; [discriminate|]. now rewrite IH.
Qed.

Lemma dividir_sem_virgula (x : PyStr) : conta_virgulas x = 0%nat -> dividir x = [x].
Proof.
  unfold conta_virgulas. induction x as [|c x IH]; simpl; intros H; [reflexivity|].
  destruct (c =? virgula)%Z; [discriminate|]. now rewrite IH.
Qed.

(** A row of the access log splits on "," into its four fields exactly when
    none of them holds a comma: a user or evaluator name with a comma in it
    yields a row with more fields than the header. *)
Theorem linha_log_campos (ts ev u a : PyStr) :
  dividir (linha_log ts ev u a) = [ts; ev; u; a ++ [nova_linha]] <->
  (conta_virgulas ts = 0 /\ conta_virgulas ev = 0 /\
   conta_virgulas u = 0 /\ conta_virgulas a = 0)%nat.
Proof.
  unfold linha_log. split.
  - intros H. apply (f_equal (@List.length PyStr)) in H.
    rewrite dividir_length, !conta_virgulas_app in H.
    unfold conta_virgulas in *. simpl in H. lia.
  - intros (H1 & H2 & H3 & H4). cbn [app].
    rewrite (dividir_sem_virgula_app ts) by exact H1.
    rewrite (dividir_sem_virgula_app ev) by exact H2.
    rewrite (dividir_sem_virgula_app u) by exact H3.
    rewrite dividir_sem_virgula; [reflexivity|].
    rewrite conta_virgulas_app, H4. reflexivity.
Qed.

(** ** [recomendacao_ia] and [kpis_basicos] together *)

Ltac lamina_alta_e_baixa :=
  match goal with
  | H1 : 19 # 2 <= ?l, H2 : ?l <= 6 |- _ =>
      exfalso; apply (Qle_trans _ _ _ H1 H2); reflexivity
  end.

(** The severity is the one written by the last rule that fired: the
    efficiency rule (["warning"]) wins over the low-depth rule
    (["error"]), which wins over the rain and high-depth rules
    (["warning"]); with no rule it is ["success"]. *)
Theorem nivel_ultima_regra (c l : Q) (e b : option Q) :
  snd (aplicar_regras c l e b) =
  (if match e, b with
      | Some e', Some b' => Qlt_bool (b' * (115 # 100)) e'
      | _, _ => false
      end then "warning"
   else if Qle_bool l 6 then "error"
   else if Qle_bool 10 c || Qle_bool (19 # 2) l then "warning"
   else "success")%string.
Proof.
  destruct e, b; cbn beta iota; casos_regras;
    first [reflexivity|exfalso; rewrite ?orb_true_r, ?orb_false_r in *; simpl in *; congruence].
Qed.

(** [recomendacao_ia] returns one to three messages, and never both the
    high-depth and the low-depth message (no depth is both >= 9.5 and
    <= 6.0), so at most three of the four rule messages can appear
    together. *)
Theorem mensagens_entre_um_e_tres (c l : Q) (e b : option Q) :
  (1 <= List.length (fst (aplicar_regras c l e b)) <= 3)%nat /\
  ~ (exists x y, In (MsgLaminaAlta x) (fst (aplicar_regras c l e b)) /\
                 In (MsgLaminaBaixa y) (fst (aplicar_regras c l e b))).
Proof.
  casos_regras; comparacoes; try lamina_alta_e_baixa;
    (split; [lia|intros (x & y & H1 & H2); simpl in H1, H2; intuition discriminate]).
Qed.

Lemma msg_chuva_aplicar (c l : Q) (e b : option Q) (x : Q) :
  In (MsgChuva x) (fst (aplicar_regras c l e b)) <-> x = c /\ 10 <= c.
Proof.
  casos_regras; comparacoes;
    (split; [intros H; simpl in H; intuition (try discriminate); congruence
            |intros [-> Hc]; simpl; auto]);
    try match goal with
        | Hc : 10 <= c, Hf : c < 10 |- _ => exact (False_ind _ (Qlt_not_le _ _ Hf Hc))
        end.
Qed.

(** The rain message of [recomendacao_ia] carries the [chuva_24h] KPI the
    tab shows, and appears exactly when that KPI is >= 10: both read the
    same 24 h window from the same maximum timestamp. *)
Theorem chuva_regra_igual_kpi (df : DataFrame) (k : Kpis) (ms : list Mensagem) (nv : string)
  (Hk : kpis_basicos df = Some k) (Hr : recomendacao_ia df = Some (ms, nv)) :
  (In (MsgChuva (chuva_24h k)) ms <-> 10 <= chuva_24h k) /\
  (forall c, In (MsgChuva c) ms -> c = chuva_24h k).
Proof.
  destruct df as [|r rs]; [discriminate|].
  unfold kpis_basicos in Hk. injection Hk as <-. cbn [chuva_24h].
  unfold recomendacao_ia in Hr.
  destruct (ultima_linha (r :: rs)) as [u|]; [|discriminate].
  apply (f_equal (option_map fst)) in Hr. cbn [option_map fst] in Hr.
  injection Hr as Hr. rewrite <- Hr.
  split.
  - rewrite msg_chuva_aplicar. tauto.
  - intros c Hc. now apply msg_chuva_aplicar in Hc.
Qed.

Lemma chuva_regra_igual_kpi_witness :
  exists k st, kpis_basicos exemplo_chuva_lamina_alta = Some k /\
    recomendacao_ia exemplo_chuva_lamina_alta = Some st /\
    (In (MsgChuva (chuva_24h k)) (fst st) <-> 10 <= chuva_24h k) /\
    (forall c, In (MsgChuva c) (fst st) -> c = chuva_24h k).
Proof.
  exists (mkKpis (120 # 12) 12 120 (Some (12 # 120)) 12 24),
         ([MsgChuva 24; MsgLaminaAlta 10], "warning"%string).
  split; [vm_compute; reflexivity|]. split; [vm_compute; reflexivity|].
  apply (chuva_regra_igual_kpi exemplo_chuva_lamina_alta _ _ "warning"%string);
    vm_compute; reflexivity.
Defined.
